(** * repo2docker: the plain build pack

    A shallow embedding of [repo2docker/buildpacks/plain/__init__.py]:
    the [apt.txt] reader of [get_preassemble_scripts], the directive loops
    and the Jinja2 template of [render], and the archive and engine call of
    [build].

    Conventions of the embedding.
    - A Python [str] is a [string]; a character stands for the code point of
      the same number, so the model covers text whose code points are below
      256.
    - A Python exception is a value of [exn]; a call that may raise returns
      a [Res].
    - A [dict] whose iteration order matters is an association list in
      insertion order; a [set] is a [gset]; keyword arguments are a [gmap]. *)

From Stdlib Require Import ZArith String Ascii List Lia Permutation Sorted.
From stdpp Require Import base gmap sets list strings sorting.

Set Warnings "-register-all".

(** ** Python values and exceptions *)

Inductive exn : Type :=
| ValueError (msg : string)
| TypeError (msg : string)
| FileNotFoundError (path : string)
(** any other exception, by the name of its class *)
| Exception (cls msg : string).

Inductive Res (A : Type) : Type :=
| Ok (a : A)
| Raise (e : exn).

Arguments Ok {A} a.
Arguments Raise {A} e.

Definition bind {A B : Type} (m : Res A) (k : A -> Res B) : Res B :=
  match m with
  | Ok a => k a
  | Raise e => Raise e
  end.

Notation "x <- m ;; k" := (bind m (fun x => k))
  (at level 100, m at next level, right associativity).

(** ** Strings *)

Definition LF : string := String "010"%char EmptyString.
Definition DQ : string := String "034"%char EmptyString.

(** [str.isspace] on one character, for code points below 256. *)
Definition isspace (c : ascii) : bool :=
  let n := nat_of_ascii c in
  ((9 <=? n) && (n <=? 13)) || ((28 <=? n) && (n <=? 32))
  || (n =? 133) || (n =? 160).

Section Strip.
Variable drop : ascii -> bool.

Fixpoint lstrip_with (s : string) : string :=
  match s with
  | EmptyString => EmptyString
  | String c s' => if drop c then lstrip_with s' else s
  end.

Fixpoint rstrip_with (s : string) : string :=
  match s with
  | EmptyString => EmptyString
  | String c s' =>
      match rstrip_with s' with
      | EmptyString => if drop c then EmptyString else String c EmptyString
      | r => String c r
      end
  end.

Definition strip_with (s : string) : string := rstrip_with (lstrip_with s).
End Strip.

(** [s.strip()] *)
Definition strip : string -> string := strip_with isspace.

(** [s.strip("\n")] *)
Definition strip_newlines : string -> string :=
  strip_with (Ascii.eqb "010"%char).

(** [s.partition(c)[0]]: the text before the first [c], all of [s] when
    there is none. *)
Fixpoint partition0 (c : ascii) (s : string) : string :=
  match s with
  | EmptyString => EmptyString
  | String a s' => if Ascii.eqb a c then EmptyString else String a (partition0 c s')
  end.

(** [sep.join(l)] *)
Definition join (sep : string) (l : list string) : string := String.concat sep l.

(** [bool(s)] for a [str]. *)
Definition nonempty (s : string) : bool :=
  match s with EmptyString => false | String _ _ => true end.

(** [os.path.join(a, b)] (POSIX) *)
Definition path_join (a b : string) : string :=
  if String.prefix "/" b then b
  else if negb (nonempty a) || String.eqb (String.substring (String.length a - 1) 1 a) "/"
       then a +:+ b
       else a +:+ "/" +:+ b.

(** ** [sorted]

    Python orders [str] by code point, which is [String.leb]. [sorted] is
    stable; the insertion below puts an element before the first later one
    whose key is not smaller, so elements with equal keys keep their order. *)

Section SortedBy.
Context {A : Type} (key : A -> string).

Fixpoint insert_by (x : A) (l : list A) : list A :=
  match l with
  | [] => [x]
  | y :: l' =>
      if String.leb (key x) (key y) then x :: l else y :: insert_by x l'
  end.

Definition sorted_by (l : list A) : list A := foldr insert_by [] l.
End SortedBy.

(** [sorted(l)] for a list of [str]. *)
Definition sorted (l : list string) : list string := sorted_by id l.

(** [sorted(s)] for a set of [str]. *)
Definition sorted_set (s : gset string) : list string := sorted (elements s).

(** ** The [apt.txt] reader: [get_preassemble_scripts] *)

(** The character class [[a-z0-9.+-]]. *)
Definition pkg_char (c : ascii) : bool :=
  let n := nat_of_ascii c in
  ((97 <=? n) && (n <=? 122)) || ((48 <=? n) && (n <=? 57))
  || (n =? 46) || (n =? 43) || (n =? 45).

(** The greedy run of [[a-z0-9.+-]] at the start of [s]. *)
Fixpoint pkg_span (s : string) : string :=
  match s with
  | EmptyString => EmptyString
  | String c s' => if pkg_char c then String c (pkg_span s') else EmptyString
  end.

(** [re.match(r"^[a-z0-9.+-]+", s)]: the match ([group(0)]) when the run at
    the start has at least one character, [None] otherwise. *)
Definition re_match_pkg (s : string) : option string :=
  match pkg_span s with
  | EmptyString => None
  | m => Some m
  end.

(** [ValueError("Found invalid package name {} in apt.txt".format(package))] *)
Definition InvalidPackageName (package : string) : exn :=
  ValueError ("Found invalid package name " +:+ package +:+ " in apt.txt").

(** The body of [for l in f], started with the list built so far. *)
Fixpoint read_apt (lines : list string) (extra_apt_packages : list string)
  : Res (list string) :=
  match lines with
  | [] => Ok extra_apt_packages
  | l :: rest =>
      let package := strip (partition0 "#"%char l) in
      if negb (nonempty package) then read_apt rest extra_apt_packages
      else
        match re_match_pkg package with
        | None => Raise (InvalidPackageName package)
        | Some _ => read_apt rest (extra_apt_packages ++ [package])
        end
  end.

Definition SP16 : string := "                ".

(** The raw script text with [{}] replaced by [pkgs]. *)
Definition apt_script (pkgs : string) : string :=
  LF +:+
  SP16 +:+ "apt-get -qq update && \" +:+ LF +:+
  SP16 +:+ "apt-get install --yes --no-install-recommends " +:+ pkgs +:+ " && \" +:+ LF +:+
  SP16 +:+ "apt-get -qq purge && \" +:+ LF +:+
  SP16 +:+ "apt-get -qq clean && \" +:+ LF +:+
  SP16 +:+ "rm -rf /var/lib/apt/lists/*" +:+ LF +:+
  SP16.

(** ** [textwrap.dedent] *)

(** [s.split(c)] for a one-character separator. *)
Fixpoint split_on (c : ascii) (s : string) : list string :=
  match s with
  | EmptyString => [EmptyString]
  | String a s' =>
      if Ascii.eqb a c then EmptyString :: split_on c s'
      else
        match split_on c s' with
        | [] => [String a EmptyString]
        | h :: t => String a h :: t
        end
  end.

(** The class [[ \t]]. *)
Definition is_blank (c : ascii) : bool :=
  Ascii.eqb c " "%char || Ascii.eqb c "009"%char.

Fixpoint all_chars (p : ascii -> bool) (s : string) : bool :=
  match s with
  | EmptyString => true
  | String c s' => p c && all_chars p s'
  end.

Fixpoint take_while (p : ascii -> bool) (s : string) : string :=
  match s with
  | EmptyString => EmptyString
  | String c s' => if p c then String c (take_while p s') else EmptyString
  end.

(** [_whitespace_only_re.sub('', text)], one line at a time: a line that
    matches [^[ \t]+$] becomes empty. *)
Definition blank_line (l : string) : string :=
  if nonempty l && all_chars is_blank l then EmptyString else l.

(** [_leading_whitespace_re.findall(text)], one line at a time: the run of
    [[ \t]] at the start of a line that goes on with a character outside
    [[ \t\n]]; a line without such a character gives no match. *)
Definition leading_whitespace (l : string) : option string :=
  let indent := take_while is_blank l in
  if (String.length indent <? String.length l)%nat then Some indent else None.

(** [margin[:i]] for the first [i] where [margin] and [indent] differ. *)
Fixpoint upto_mismatch (margin indent : string) : string :=
  match margin, indent with
  | String x m', String y i' =>
      if Ascii.eqb x y then String x (upto_mismatch m' i') else EmptyString
  | _, _ => margin
  end.

(** One round of the [for indent in indents] loop. *)
Definition margin_step (margin : option string) (indent : string) : option string :=
  match margin with
  | None => Some indent
  | Some m =>
      if String.prefix m indent then Some m
      else if String.prefix indent m then Some indent
      else Some (upto_mismatch m indent)
  end.

(** [re.sub(r'(?m)^' + margin, '', text)], one line at a time. *)
Definition cut_margin (margin : string) (l : string) : string :=
  if String.prefix margin l
  then String.substring (String.length margin) (String.length l - String.length margin) l
  else l.

Definition dedent (text : string) : string :=
  let lines := map blank_line (split_on "010"%char text) in
  let indents := omap leading_whitespace lines in
  let margin := fold_left margin_step indents None in
  match margin with
  | Some (String c m) => join LF (map (cut_margin (String c m)) lines)
  | _ => join LF lines
  end.

(** ** Script directives *)

Inductive Directive : Type :=
| USER (user : string)
| RUN (body : string).

(** ["USER {}".format(user)] and ["RUN {}".format(body)] *)
Definition directive_text (d : Directive) : string :=
  match d with
  | USER user => "USER " +:+ user
  | RUN body => "RUN " +:+ body
  end.

Definition is_USER (d : Directive) : bool :=
  match d with USER _ => true | RUN _ => false end.

Definition is_RUN (d : Directive) : bool :=
  match d with USER _ => false | RUN _ => true end.

(** The loop that [render] runs three times, over [get_build_scripts()],
    [get_assemble_scripts()] and [get_preassemble_scripts()]; [last_user] is
    the loop's variable of that name. *)
Fixpoint script_directives_from (last_user : string)
  (scripts : list (string * string)) : list Directive :=
  match scripts with
  | [] => []
  | (user, script) :: rest =>
      let run := RUN (dedent (strip_newlines script)) in
      if negb (String.eqb last_user user)
      then USER user :: run :: script_directives_from user rest
      else run :: script_directives_from last_user rest
  end.

Definition script_directives : list (string * string) -> list Directive :=
  script_directives_from "root".

(** ** The template

    [TEMPLATE] is rendered by [jinja2.Template] with its default settings:
    a tag closed by [-%}] removes the white space that follows it, a tag
    opened by [{%-] the white space before it, and the last newline of the
    template is dropped. What is left of the template between two tags is
    emitted as it stands. A rendered document is a list of [Item]s: the
    instructions the blocks of the template emit, and the white space that
    the template emits whatever its variables hold. *)

Inductive Phase : Type := BaseSetup | PreAssemble | Assemble.

Inductive Instr : Type :=
| FROM_IMAGE
| ENV_FRONTEND
| LOCALES
| BASE_INSTALL (base_packages : list string)
| INSTALL (packages : list string)
| ENV (k v : string)
| ENV_PATH (path : list string)
| COPY (src dst : string)
| COPY_SRC (src dst : string)
| SCRIPT (phase : Phase) (sd : Directive)
| CHOWN_REPO
| WORKDIR
| LABEL (k v : string)
| POST_BUILD (s : string)
| START (start_script : string)
| ENTRYPOINT (entrypoint : string)
| CMD (cmd : string).

Inductive Item : Type :=
| Text (s : string)
| Ins (i : Instr).

Definition cat (l : list string) : string := String.concat EmptyString l.

(** The [{% for package in ... -%}] loop of the two install blocks. *)
Definition package_lines (l : list string) : string :=
  cat (map (fun package => package +:+ " \" +:+ LF +:+ "       ") l).

Definition apt_tail : string :=
  "> /dev/null && \" +:+ LF +:+
  "    apt-get -qq purge && \" +:+ LF +:+
  "    apt-get -qq clean && \" +:+ LF +:+
  "    rm -rf /var/lib/apt/lists/*" +:+ LF.

Definition instr_text (i : Instr) : string :=
  match i with
  | FROM_IMAGE => "FROM buildpack-deps:bionic"
  | ENV_FRONTEND => "ENV DEBIAN_FRONTEND=noninteractive" +:+ LF
  | LOCALES =>
      "RUN apt-get -qq update && \" +:+ LF +:+
      "    apt-get -qq install --yes --no-install-recommends locales > /dev/null && \" +:+ LF +:+
      "    apt-get -qq purge && \" +:+ LF +:+
      "    apt-get -qq clean && \" +:+ LF +:+
      "    rm -rf /var/lib/apt/lists/*" +:+ LF +:+
      "RUN echo " +:+ DQ +:+ "en_US.UTF-8 UTF-8" +:+ DQ +:+ " > /etc/locale.gen && \" +:+ LF +:+
      "    locale-gen" +:+ LF +:+
      "ENV LC_ALL en_US.UTF-8" +:+ LF +:+
      "ENV LANG en_US.UTF-8" +:+ LF +:+
      "ENV LANGUAGE en_US.UTF-8" +:+ LF
  | BASE_INSTALL l =>
      "RUN apt-get -qq update && \" +:+ LF +:+
      "    apt-get -qq install --yes --no-install-recommends \" +:+ LF +:+
      "       " +:+ package_lines l +:+ apt_tail
  | INSTALL l =>
      "RUN apt-get -qq update && \" +:+ LF +:+
      "    apt-get -qq install --yes \" +:+ LF +:+
      "       " +:+ package_lines l +:+ apt_tail
  | ENV k v => "ENV " +:+ k +:+ " " +:+ v +:+ LF
  | ENV_PATH path => "ENV PATH " +:+ join ":" path +:+ ":${PATH}" +:+ LF
  | COPY src dst => LF +:+ "COPY " +:+ src +:+ " " +:+ dst +:+ LF
  | COPY_SRC src dst =>
      LF +:+ "COPY src/" +:+ src +:+ " ${REPO_DIR}/" +:+ dst +:+ LF
  | SCRIPT _ sd => directive_text sd +:+ LF
  | CHOWN_REPO =>
      "USER root" +:+ LF +:+
      "RUN chown -R ${NB_USER}:${NB_USER} ${REPO_DIR}" +:+ LF
  | WORKDIR => "WORKDIR workdir" +:+ LF
  | LABEL k v => LF +:+ "LABEL " +:+ k +:+ "=" +:+ DQ +:+ v +:+ DQ
  | POST_BUILD s => "RUN chmod +x " +:+ s +:+ LF +:+ "RUN ./" +:+ s +:+ LF
  | START s =>
      "RUN chmod +x " +:+ DQ +:+ s +:+ DQ +:+ LF +:+
      "ENV R2D_ENTRYPOINT " +:+ DQ +:+ s +:+ DQ +:+ LF
  | ENTRYPOINT e => "ENTRYPOINT [" +:+ DQ +:+ " " +:+ e +:+ DQ +:+ "]" +:+ LF
  | CMD c => "CMD [" +:+ DQ +:+ c +:+ DQ +:+ "]" +:+ LF
  end.

Definition item_text (it : Item) : string :=
  match it with
  | Text s => s
  | Ins i => instr_text i
  end.

(** The instructions of a document, in order. *)
Definition instructions (doc : list Item) : list Instr :=
  omap (fun it => match it with Ins i => Some i | Text _ => None end) doc.

(** The document as text. *)
Definition document_text (doc : list Item) : string := cat (map item_text doc).

(** [c.lower()] for a code point below 256. *)
Definition lower_char (c : ascii) : ascii :=
  let n := nat_of_ascii c in
  if ((65 <=? n) && (n <=? 90))
     || ((192 <=? n) && (n <=? 222) && negb (n =? 215))
  then ascii_of_nat (n + 32) else c.

Fixpoint lower (s : string) : string :=
  match s with
  | EmptyString => EmptyString
  | String c s' => String (lower_char c) (lower s')
  end.

(** Jinja2's [dictsort] filter with its defaults: the items of the dict,
    sorted by key with the case ignored. *)
Definition dictsort (d : list (string * string)) : list (string * string) :=
  sorted_by (fun kv => lower (fst kv)) d.

(** The variables of the template. [render] passes none of [set_up_apt],
    [set_up_locales], [base_packages] and [workdir]: they are undefined in
    the template, which tests them as false. *)
Record Context : Type := {
  set_up_apt : bool;
  set_up_locales : bool;
  base_packages : list string;
  workdir : bool;
  packages : list string;
  path : list string;
  build_env : list (string * string);
  env : list (string * string);
  labels : list (string * string);
  build_script_directives : list Directive;
  preassemble_script_files : list (string * string);
  preassemble_script_directives : list Directive;
  assemble_script_directives : list Directive;
  build_script_files : list (string * string);
  post_build_scripts : list string;
  start_script : option string;
  cmd : string;
  entrypoint : string
}.

(** [{% if x %}] on a list or a dict. *)
Definition truthy {A : Type} (l : list A) : bool :=
  match l with [] => false | _ :: _ => true end.

Definition when (b : bool) (l : list Item) : list Item := if b then l else [].

Definition TEMPLATE (c : Context) : list Item :=
  [Text LF; Ins FROM_IMAGE; Text (LF +:+ LF)] ++
  when (set_up_apt c) [Ins ENV_FRONTEND] ++
  when (set_up_locales c) [Ins LOCALES] ++
  when (truthy (base_packages c)) [Ins (BASE_INSTALL (base_packages c))] ++
  when (truthy (packages c)) [Ins (INSTALL (packages c))] ++
  when (truthy (build_env c))
    (map (fun item => Ins (ENV (fst item) (snd item))) (build_env c)) ++
  when (truthy (path c)) [Ins (ENV_PATH (path c))] ++
  when (truthy (build_script_files c))
    (map (fun sd => Ins (COPY (fst sd) (snd sd))) (dictsort (build_script_files c))) ++
  map (fun sd => Ins (SCRIPT BaseSetup sd)) (build_script_directives c) ++
  [Text (LF +:+ LF)] ++
  when (workdir c) [Ins WORKDIR] ++
  when (truthy (env c))
    (map (fun item => Ins (ENV (fst item) (snd item))) (env c)) ++
  when (truthy (preassemble_script_files c))
    (map (fun sd => Ins (COPY_SRC (fst sd) (snd sd)))
         (dictsort (preassemble_script_files c))) ++
  when (truthy (preassemble_script_directives c)) [Ins CHOWN_REPO] ++
  map (fun sd => Ins (SCRIPT PreAssemble sd)) (preassemble_script_directives c) ++
  [Text (LF +:+ LF)] ++
  map (fun sd => Ins (SCRIPT Assemble sd)) (assemble_script_directives c) ++
  [Text (LF +:+ LF)] ++
  map (fun kv => Ins (LABEL (fst kv) (snd kv))) (dictsort (labels c)) ++
  [Text (LF +:+ LF)] ++
  when (truthy (post_build_scripts c))
    (map (fun s => Ins (POST_BUILD s)) (post_build_scripts c) ++ [Text LF]) ++
  match start_script c with
  | Some s => [Ins (START s)]
  | None => []
  end ++
  when (nonempty (entrypoint c)) [Ins (ENTRYPOINT (entrypoint c))] ++
  [Text (LF +:+ LF)] ++
  when (nonempty (cmd c)) [Ins (CMD (cmd c))] ++
  [Text LF].

(** ** The archive

    The part of [tarfile] that [build] uses. An archive is the list of its
    members in the order they were added; a member is its header
    ([TarInfo]) and its bytes. The host's files are regular files and
    directories. *)

Inductive TarType : Type := REGTYPE | DIRTYPE.

Module TarInfo.
Record t : Type := {
  name : string;
  mode : Z;
  uid : Z;
  gid : Z;
  size : Z;
  mtime : Z;
  type : TarType;
  uname : string;
  gname : string
}.
End TarInfo.

Definition Member : Type := TarInfo.t * list Byte.byte.

(** What [os.lstat] and the user and group databases of the host report
    for a file. *)
Record Stat : Type := {
  st_mode : Z;
  st_uid : Z;
  st_gid : Z;
  st_mtime : Z;
  pw_name : string;
  gr_name : string
}.

(** A file tree of the host; the entries of a directory are in the order
    of [os.listdir]. *)
Inductive Node : Type :=
| File (st : Stat) (data : list Byte.byte)
| Dir (st : Stat) (entries : list (string * Node)).

Definition node_stat (n : Node) : Stat :=
  match n with File st _ => st | Dir st _ => st end.

(** [TarInfo(name)] *)
Definition TarInfo_new (name : string) : TarInfo.t := {|
  TarInfo.name := name;
  TarInfo.mode := 420;
  TarInfo.uid := 0;
  TarInfo.gid := 0;
  TarInfo.size := 0;
  TarInfo.mtime := 0;
  TarInfo.type := REGTYPE;
  TarInfo.uname := EmptyString;
  TarInfo.gname := EmptyString
|}.

(** [TarFile.gettarinfo(name, arcname)] on the node found at [name]. *)
Definition gettarinfo (n : Node) (arcname : string) : TarInfo.t := {|
  TarInfo.name := lstrip_with (Ascii.eqb "/"%char) arcname;
  TarInfo.mode := st_mode (node_stat n);
  TarInfo.uid := st_uid (node_stat n);
  TarInfo.gid := st_gid (node_stat n);
  TarInfo.size :=
    match n with File _ data => Z.of_nat (length data) | Dir _ _ => 0%Z end;
  TarInfo.mtime := st_mtime (node_stat n);
  TarInfo.type := match n with File _ _ => REGTYPE | Dir _ _ => DIRTYPE end;
  TarInfo.uname := pw_name (node_stat n);
  TarInfo.gname := gr_name (node_stat n)
|}.

(** The results of a list of calls, up to the first that raises. *)
Fixpoint sequence {A : Type} (l : list (Res A)) : Res (list A) :=
  match l with
  | [] => Ok []
  | m :: l' => a <- m ;; r <- sequence l' ;; Ok (a :: r)
  end.

(** [TarFile.add(name, arcname, filter=filter)] on the node found at
    [name]: the members it appends. A directory is followed by its entries
    in [sorted(os.listdir(name))] order, each under
    [os.path.join(arcname, f)]. *)
Fixpoint add_node (filter : TarInfo.t -> Res TarInfo.t) (n : Node)
  (arcname : string) : Res (list Member) :=
  tarinfo <- filter (gettarinfo n arcname) ;;
  match n with
  | File _ data => Ok [(tarinfo, data)]
  | Dir _ entries =>
      let added :=
        map (fun e => (fst e, add_node filter (snd e) (path_join arcname (fst e))))
            entries in
      rest <- sequence (map snd (sorted_by fst added)) ;;
      Ok ((tarinfo, []) :: concat rest)
  end.

(** [s.encode("utf-8")] for code points below 256. *)
Definition utf8_char (c : ascii) : list Byte.byte :=
  let n := nat_of_ascii c in
  if n <? 128 then [byte_of_ascii c]
  else [byte_of_ascii (ascii_of_nat (192 + n / 64));
        byte_of_ascii (ascii_of_nat (128 + n mod 64))].

Fixpoint encode_utf8 (s : string) : list Byte.byte :=
  match s with
  | EmptyString => []
  | String c s' => utf8_char c ++ encode_utf8 s'
  end.

(** ** Values passed to [build] and to the engine *)

Inductive PyVal : Type :=
| PyNone
| PyBool (b : bool)
| PyInt (z : Z)
| PyStr (s : string)
| PyList (l : list PyVal)
| PyDict (d : gmap string PyVal)
(** an [io.BytesIO] holding an archive, rewound *)
| PyBytesIO (archive : list Member).

(** [isinstance(v, int)]; [bool] is a subclass of [int]. *)
Definition isinstance_int (v : PyVal) : bool :=
  match v with
  | PyInt _ | PyBool _ => true
  | _ => false
  end.

(** [bool(v)] *)
Definition truth (v : PyVal) : bool :=
  match v with
  | PyNone => false
  | PyBool b => b
  | PyInt z => negb (z =? 0)%Z
  | PyStr s => nonempty s
  | PyList l => truthy l
  | PyDict d => negb (bool_decide (d = ∅))
  | PyBytesIO _ => true
  end.

(** [type(v).__name__] *)
Definition type_name (v : PyVal) : string :=
  match v with
  | PyNone => "NoneType"
  | PyBool _ => "bool"
  | PyInt _ => "int"
  | PyStr _ => "str"
  | PyList _ => "list"
  | PyDict _ => "dict"
  | PyBytesIO _ => "_io.BytesIO"
  end.

(** [str(type(v))] *)
Definition type_str (v : PyVal) : string := "<class '" +:+ type_name v +:+ "'>".

Definition is_digit (c : ascii) : bool :=
  let n := nat_of_ascii c in (48 <=? n) && (n <=? 57).

Definition digit_value (c : ascii) : Z := Z.of_nat (nat_of_ascii c - 48).

(** The digits of a decimal literal; a single [_] may stand between two
    digits. [after_digit] tells whether the character before was a digit. *)
Fixpoint decimal (s : string) (acc : Z) (after_digit : bool) : option Z :=
  match s with
  | EmptyString => if after_digit then Some acc else None
  | String c s' =>
      if is_digit c then decimal s' (10 * acc + digit_value c)%Z true
      else if Ascii.eqb c "_"%char && after_digit then
        match s' with
        | String d _ => if is_digit d then decimal s' acc false else None
        | EmptyString => None
        end
      else None
  end.

(** [int(s)] for a [str]: white space around, a sign, decimal digits. *)
Definition int_of_str (s : string) : option Z :=
  match strip s with
  | String "-"%char r => Z.opp <$> decimal r 0 false
  | String "+"%char r => decimal r 0 false
  | r => decimal r 0 false
  end.

(** [int(v)]; the message of the [ValueError] quotes [s] as [repr] does a
    string without quotes, backslashes or control characters. *)
Definition py_int (v : PyVal) : Res Z :=
  match v with
  | PyInt z => Ok z
  | PyBool b => Ok (if b then 1 else 0)%Z
  | PyStr s =>
      match int_of_str s with
      | Some z => Ok z
      | None =>
          Raise (ValueError ("invalid literal for int() with base 10: '" +:+ s +:+ "'"))
      end
  | _ =>
      Raise (TypeError
        ("int() argument must be a string, a bytes-like object or a real number, not '"
         +:+ type_name v +:+ "'"))
  end.

(** [d.get(k, default)] *)
Definition dict_get (d : gmap string PyVal) (k : string) (dflt : PyVal) : PyVal :=
  default dflt (d !! k).

(** The error [build] raises for a memory limit that is not an [int]; the
    two string literals of the source are adjacent, without a space. *)
Definition InvalidResourceLimit (memory_limit : PyVal) : exn :=
  ValueError ("The memory limit has to be specified as an" +:+
              "integer but is '" +:+ type_str memory_limit +:+ "'").

(** What [build] does that can be seen from outside: it closes the archive
    it has written, and it calls the engine. *)
Inductive Event : Type :=
| TarClose (archive : list Member)
| ClientBuild (build_kwargs : gmap string PyVal).

(** [client.build] called with keyword arguments: the lines the engine
    yields, and the exception that ends them, if any. *)
Definition Client : Type := gmap string PyVal -> list PyVal * option exn.

(** The file trees of the host, by path; [None] when [os.lstat] raises
    [FileNotFoundError]. *)
Definition Files : Type := string -> option Node.

(** [TarFile.add(name, arcname, filter=filter)] *)
Definition tar_add (fs : Files) (filter : TarInfo.t -> Res TarInfo.t)
  (name arcname : string) : Res (list Member) :=
  match fs name with
  | None => Raise (FileNotFoundError name)
  | Some n => add_node filter n arcname
  end.

(** ** The build pack object

    [PlainBuildPack] extends [BuildPack] of [repo2docker/buildpacks/base.py].
    [render] and [build] reach every other method through [self]; a value of
    [BuildPack.t] holds what each of these calls returns. *)

Module BuildPack.
Record t : Type := {
  get_packages : gset string;
  get_path : list string;
  get_build_env : list (string * string);
  get_env : list (string * string);
  get_labels : list (string * string);
  get_build_scripts : list (string * string);
  get_assemble_scripts : list (string * string);
  get_preassemble_scripts : Res (list (string * string));
  get_build_script_files : list (string * string);
  get_preassemble_script_files : list (string * string);
  get_post_build_scripts : list string;
  get_start_script : option string;
  binder_path : string -> string
}.
End BuildPack.

(** What the methods read from the repository they run in. *)
Record Repo : Type := {
  (** the lines of the text file at a path when it is read to its end,
      [None] when [open] raises [FileNotFoundError]; a file that cannot be
      opened or read for another reason is not covered *)
  read_lines : string -> option (list string);
  (** [os.path.exists] *)
  path_exists : string -> bool
}.

Module PlainBuildPack.

Definition get_packages : gset string := ∅.

Definition get_preassemble_scripts (apt_txt : option (list string))
  : Res (list (string * string)) :=
  match apt_txt with
  | None => Ok []
  | Some lines =>
      extra_apt_packages <- read_apt lines [] ;;
      Ok [("root", apt_script (join " " (sorted extra_apt_packages)))]
  end.

Definition get_post_build_scripts (repo : Repo) (post_build : string)
  : list string :=
  if path_exists repo post_build then [post_build] else [].

Definition get_start_script (repo : Repo) (start : string) : option string :=
  if path_exists repo start then Some (path_join "${REPO_DIR}" start) else None.

(** A [PlainBuildPack] in the repository [repo]: the four methods the
    class defines, the others as inherited from [super]. *)
Definition new (super : BuildPack.t) (repo : Repo) : BuildPack.t := {|
  BuildPack.get_packages := get_packages;
  BuildPack.get_path := BuildPack.get_path super;
  BuildPack.get_build_env := BuildPack.get_build_env super;
  BuildPack.get_env := BuildPack.get_env super;
  BuildPack.get_labels := BuildPack.get_labels super;
  BuildPack.get_build_scripts := BuildPack.get_build_scripts super;
  BuildPack.get_assemble_scripts := BuildPack.get_assemble_scripts super;
  BuildPack.get_preassemble_scripts :=
    get_preassemble_scripts
      (read_lines repo (BuildPack.binder_path super "apt.txt"));
  BuildPack.get_build_script_files := BuildPack.get_build_script_files super;
  BuildPack.get_preassemble_script_files :=
    BuildPack.get_preassemble_script_files super;
  BuildPack.get_post_build_scripts :=
    get_post_build_scripts repo (BuildPack.binder_path super "postBuild");
  BuildPack.get_start_script :=
    get_start_script repo (BuildPack.binder_path super "start");
  BuildPack.binder_path := BuildPack.binder_path super
|}.

(** The keyword arguments of [t.render(...)]. *)
Definition context (self : BuildPack.t)
  (preassemble_script_directives : list Directive) : Context := {|
  set_up_apt := false;
  set_up_locales := false;
  base_packages := [];
  workdir := false;
  packages := sorted_set (BuildPack.get_packages self);
  path := BuildPack.get_path self;
  build_env := BuildPack.get_build_env self;
  env := BuildPack.get_env self;
  labels := BuildPack.get_labels self;
  build_script_directives := script_directives (BuildPack.get_build_scripts self);
  preassemble_script_files := BuildPack.get_preassemble_script_files self;
  preassemble_script_directives := preassemble_script_directives;
  assemble_script_directives :=
    script_directives (BuildPack.get_assemble_scripts self);
  build_script_files := BuildPack.get_build_script_files self;
  post_build_scripts := BuildPack.get_post_build_scripts self;
  start_script := BuildPack.get_start_script self;
  cmd := "my_command";
  entrypoint := "my_entrypoint"
|}.

(** [render], as the document's items. *)
Definition render_items (self : BuildPack.t) : Res (list Item) :=
  scripts <- BuildPack.get_preassemble_scripts self ;;
  Ok (TEMPLATE (context self (script_directives scripts))).

(** [render]: the Dockerfile. *)
Definition render (self : BuildPack.t) : Res string :=
  doc <- render_items self ;;
  Ok (document_text doc).

(** [_filter_tar], the filter of every [tar.add] of [build]. *)
Definition _filter_tar (build_args : gmap string PyVal) (tar : TarInfo.t)
  : Res TarInfo.t :=
  uid <- py_int (dict_get build_args "NB_UID" (PyInt 1000)) ;;
  gid <- py_int (dict_get build_args "NB_UID" (PyInt 1000)) ;;
  Ok {| TarInfo.name := TarInfo.name tar;
        TarInfo.mode := TarInfo.mode tar;
        TarInfo.uid := uid;
        TarInfo.gid := gid;
        TarInfo.size := TarInfo.size tar;
        TarInfo.mtime := TarInfo.mtime tar;
        TarInfo.type := TarInfo.type tar;
        TarInfo.uname := EmptyString;
        TarInfo.gname := EmptyString |}.

(** [dockerfile_tarinfo] once its size is set. *)
Definition dockerfile_tarinfo (dockerfile : list Byte.byte) : TarInfo.t := {|
  TarInfo.name := "Dockerfile";
  TarInfo.mode := TarInfo.mode (TarInfo_new "Dockerfile");
  TarInfo.uid := TarInfo.uid (TarInfo_new "Dockerfile");
  TarInfo.gid := TarInfo.gid (TarInfo_new "Dockerfile");
  TarInfo.size := Z.of_nat (length dockerfile);
  TarInfo.mtime := TarInfo.mtime (TarInfo_new "Dockerfile");
  TarInfo.type := TarInfo.type (TarInfo_new "Dockerfile");
  TarInfo.uname := TarInfo.uname (TarInfo_new "Dockerfile");
  TarInfo.gname := TarInfo.gname (TarInfo_new "Dockerfile")
|}.

(** The first part of [build], up to [tar.close()]: the archive.
    [module_dir] is [os.path.dirname(__file__)]. *)
Definition archive (self : BuildPack.t) (fs : Files) (module_dir : string)
  (build_args : gmap string PyVal) : Res (list Member) :=
  text <- render self ;;
  let dockerfile := encode_utf8 text in
  files <- sequence
    (map (fun src =>
            let src_parts := split_on "/"%char src in
            let src_path := fold_left path_join src_parts module_dir in
            tar_add fs (_filter_tar build_args) src_path src)
         (sorted (map fst (BuildPack.get_build_script_files self)))) ;;
  tree <- tar_add fs (_filter_tar build_args) "." "src/" ;;
  Ok ((dockerfile_tarinfo dockerfile, dockerfile) :: concat files ++ tree).

(** [build], run until its generator is exhausted: the events in order,
    the lines yielded and the exception raised, if any. *)
Definition build (self : BuildPack.t) (fs : Files) (module_dir : string)
  (client : Client) (image_spec memory_limit : PyVal)
  (build_args : gmap string PyVal) (cache_from : PyVal)
  (extra_build_kwargs : gmap string PyVal)
  : list Event * (list PyVal * option exn) :=
  match archive self fs module_dir build_args with
  | Raise e => ([], ([], Some e))
  | Ok tarf =>
      if negb (isinstance_int memory_limit)
      then ([TarClose tarf], ([], Some (InvalidResourceLimit memory_limit)))
      else
        let limits : gmap string PyVal :=
          if truth memory_limit
          then {[ "memory" := memory_limit; "memswap" := memory_limit ]}
          else ∅ in
        let build_kwargs : gmap string PyVal :=
          {[ "fileobj" := PyBytesIO tarf;
             "tag" := image_spec;
             "custom_context" := PyBool true;
             "buildargs" := PyDict build_args;
             "decode" := PyBool true;
             "forcerm" := PyBool true;
             "rm" := PyBool true;
             "container_limits" := PyDict limits;
             "cache_from" := cache_from ]} in
        (* build_kwargs.update(extra_build_kwargs) *)
        let build_kwargs := extra_build_kwargs ∪ build_kwargs in
        ([TarClose tarf; ClientBuild build_kwargs], client build_kwargs)
  end.

End PlainBuildPack.

(** * Notions used in the statements *)

(** The number of elements of [l] that satisfy [p]. *)
Fixpoint count {A : Type} (p : A -> bool) (l : list A) : nat :=
  match l with
  | [] => 0
  | x :: l' => (if p x then 1 else 0) + count p l'
  end.

(** The users of the [USER] directives of a list, in order. *)
Definition users_of (ds : list Directive) : list string :=
  omap (fun d => match d with USER u => Some u | RUN _ => None end) ds.

(** No element of [l] equals the one that follows it. *)
Fixpoint no_repeat (l : list string) : Prop :=
  match l with
  | x :: (y :: _) as l' => x <> y /\ no_repeat l'
  | _ => True
  end.

(** No [USER] directive of [ds] is followed at once by another. *)
Fixpoint no_USER_USER (ds : list Directive) : Prop :=
  match ds with
  | USER _ :: (USER _ :: _) => False
  | _ :: ds' => no_USER_USER ds'
  | [] => True
  end.

Definition is_CHOWN_REPO (i : Instr) : bool :=
  match i with CHOWN_REPO => true | _ => false end.

(** A build pack with nothing configured: no packages, no scripts of any
    phase, no files, no labels, no environment, no post-build and no start
    script. *)
Definition empty_config (self : BuildPack.t) : Prop :=
  BuildPack.get_packages self = ∅ /\
  BuildPack.get_path self = [] /\
  BuildPack.get_build_env self = [] /\
  BuildPack.get_env self = [] /\
  BuildPack.get_labels self = [] /\
  BuildPack.get_build_scripts self = [] /\
  BuildPack.get_assemble_scripts self = [] /\
  BuildPack.get_preassemble_scripts self = Ok [] /\
  BuildPack.get_build_script_files self = [] /\
  BuildPack.get_preassemble_script_files self = [] /\
  BuildPack.get_post_build_scripts self = [] /\
  BuildPack.get_start_script self = None.

(** A base class that configures nothing, and a repository without files. *)
Definition bare_super : BuildPack.t := {|
  BuildPack.get_packages := ∅;
  BuildPack.get_path := [];
  BuildPack.get_build_env := [];
  BuildPack.get_env := [];
  BuildPack.get_labels := [];
  BuildPack.get_build_scripts := [];
  BuildPack.get_assemble_scripts := [];
  BuildPack.get_preassemble_scripts := Ok [];
  BuildPack.get_build_script_files := [];
  BuildPack.get_preassemble_script_files := [];
  BuildPack.get_post_build_scripts := [];
  BuildPack.get_start_script := None;
  BuildPack.binder_path := fun p => p
|}.

Definition bare_repo : Repo := {|
  read_lines := fun _ => None;
  path_exists := fun _ => false
|}.

(** A repository whose only file is [apt.txt], with the given lines. *)
Definition apt_repo (lines : list string) : Repo := {|
  read_lines := fun p => if String.eqb p "apt.txt" then Some lines else None;
  path_exists := fun p => String.eqb p "apt.txt"
|}.

(** The Dockerfile of a build pack with nothing configured. *)
Definition bare_dockerfile : string :=
  LF +:+ "FROM buildpack-deps:bionic" +:+ LF +:+ LF +:+
  LF +:+ LF +:+ LF +:+ LF +:+ LF +:+ LF +:+ LF +:+ LF +:+
  "ENTRYPOINT [" +:+ DQ +:+ " my_entrypoint" +:+ DQ +:+ "]" +:+ LF +:+
  LF +:+ LF +:+
  "CMD [" +:+ DQ +:+ "my_command" +:+ DQ +:+ "]" +:+ LF +:+
  LF.

(** The instructions of the template in the order it emits them: the
    build plan of a context. *)
Definition build_plan (c : Context) : list Instr :=
  [FROM_IMAGE] ++
  (if set_up_apt c then [ENV_FRONTEND] else []) ++
  (if set_up_locales c then [LOCALES] else []) ++
  (if truthy (base_packages c) then [BASE_INSTALL (base_packages c)] else []) ++
  (if truthy (packages c) then [INSTALL (packages c)] else []) ++
  map (fun item => ENV (fst item) (snd item)) (build_env c) ++
  (if truthy (path c) then [ENV_PATH (path c)] else []) ++
  map (fun sd => COPY (fst sd) (snd sd)) (dictsort (build_script_files c)) ++
  map (SCRIPT BaseSetup) (build_script_directives c) ++
  (if workdir c then [WORKDIR] else []) ++
  map (fun item => ENV (fst item) (snd item)) (env c) ++
  map (fun sd => COPY_SRC (fst sd) (snd sd))
      (dictsort (preassemble_script_files c)) ++
  (if truthy (preassemble_script_directives c) then [CHOWN_REPO] else []) ++
  map (SCRIPT PreAssemble) (preassemble_script_directives c) ++
  map (SCRIPT Assemble) (assemble_script_directives c) ++
  map (fun kv => LABEL (fst kv) (snd kv)) (dictsort (labels c)) ++
  map POST_BUILD (post_build_scripts c) ++
  match start_script c with Some s => [START s] | None => [] end ++
  (if nonempty (entrypoint c) then [ENTRYPOINT (entrypoint c)] else []) ++
  (if nonempty (cmd c) then [CMD (cmd c)] else []).

(** A base class that stages one file before assembly and configures
    nothing else. *)
Definition staging_super : BuildPack.t := {|
  BuildPack.get_packages := ∅;
  BuildPack.get_path := [];
  BuildPack.get_build_env := [];
  BuildPack.get_env := [];
  BuildPack.get_labels := [];
  BuildPack.get_build_scripts := [];
  BuildPack.get_assemble_scripts := [];
  BuildPack.get_preassemble_scripts := Ok [];
  BuildPack.get_build_script_files := [];
  BuildPack.get_preassemble_script_files := [("setup.py", "setup.py")];
  BuildPack.get_post_build_scripts := [];
  BuildPack.get_start_script := None;
  BuildPack.binder_path := fun p => p
|}.

(** What a line of [apt.txt] is once its comment and the white space
    around it are removed. *)
Definition package_of (l : string) : string := strip (partition0 "#"%char l).

(** The [RUN] directive of the [apt.txt] step for the joined names [pkgs]. *)
Definition apt_directive (pkgs : string) : Directive :=
  RUN (dedent (strip_newlines (apt_script pkgs))).

(** The pre-assembly script directives among a list of instructions. *)
Definition preassemble_of (i : Instr) : option Directive :=
  match i with SCRIPT PreAssemble sd => Some sd | _ => None end.

(** The package lists of the explicit install instructions among a list of
    instructions. *)
Definition install_of (i : Instr) : option (list string) :=
  match i with INSTALL l => Some l | _ => None end.

(** The install command of the [apt.txt] step as the Dockerfile shows it,
    for the joined names [pkgs]. *)
Definition install_command (pkgs : string) : string :=
  "apt-get -qq update && \" +:+ LF +:+
  "apt-get install --yes --no-install-recommends " +:+ pkgs +:+ " && \" +:+ LF +:+
  "apt-get -qq purge && \" +:+ LF +:+
  "apt-get -qq clean && \" +:+ LF +:+
  "rm -rf /var/lib/apt/lists/*" +:+ LF.

(** [re.match] succeeded. *)
Definition matched (m : option string) : bool :=
  match m with Some _ => true | None => false end.

(** The order of [str] as a relation. *)
Definition str_le (x y : string) : Prop := String.leb x y = true.

(** The names the reader keeps from the lines of an [apt.txt] that it
    accepts, in the order of the file. *)
Definition kept_names (lines : list string) : list string :=
  List.filter nonempty (map package_of lines).

(** A line that passes the check although not all of it is a package
    name. *)
Definition injected_line : string := "curl; rm -rf /".

(** A host whose working directory holds one file; [owner] and [user] are
    the numeric and the named owner the host reports, [mtime] the time
    stamp of the directory and of the file. *)
Definition sample_stat (mode owner mtime : Z) (user : string) : Stat := {|
  st_mode := mode;
  st_uid := owner;
  st_gid := owner;
  st_mtime := mtime;
  pw_name := user;
  gr_name := user
|}.

Definition sample_tree (owner mtime : Z) (user : string) : Node :=
  Dir (sample_stat 16877 owner mtime user)
      [("README", File (sample_stat 33188 owner mtime user) [Byte.x68; Byte.x69])].

Definition sample_files (owner mtime : Z) (user : string) : Files :=
  fun p => if String.eqb p "." then Some (sample_tree owner mtime user) else None.

(** An engine that yields one line. *)
Definition sample_client : Client := fun _ => ([PyStr "Successfully built"], None).

(** The events of a run that are calls of the engine. *)
Definition is_ClientBuild (e : Event) : bool :=
  match e with ClientBuild _ => true | TarClose _ => false end.

(** A [Stat] without the owner the host reports. *)
Definition anonymous (st : Stat) : Stat := {|
  st_mode := st_mode st;
  st_uid := 0;
  st_gid := 0;
  st_mtime := st_mtime st;
  pw_name := EmptyString;
  gr_name := EmptyString
|}.

(** A [Stat] without the owner and without the time stamp. *)
Definition timeless (st : Stat) : Stat := {|
  st_mode := st_mode st;
  st_uid := 0;
  st_gid := 0;
  st_mtime := 0;
  pw_name := EmptyString;
  gr_name := EmptyString
|}.

(** A file tree with every [Stat] normalised by [norm] and the entries of
    every directory in the order of their names. *)
Fixpoint canon_with (norm : Stat -> Stat) (n : Node) : Node :=
  match n with
  | File st data => File (norm st) data
  | Dir st entries =>
      Dir (norm st)
          (sorted_by fst (map (fun e => (fst e, canon_with norm (snd e))) entries))
  end.

(** Two hosts hold the same files when their trees agree once [norm] has
    removed what is to be ignored and the listing order is forgotten. *)
Definition same_files (norm : Stat -> Stat) (fs1 fs2 : Files) : Prop :=
  forall p, canon_with norm <$> fs1 p = canon_with norm <$> fs2 p.

(** A working directory with two files; [swap] is the order in which the
    host lists them. *)
Definition listed_tree (owner mtime : Z) (user : string) (swap : bool) : Node :=
  let a := ("a.txt", File (sample_stat 33188 owner mtime user) [Byte.x61]) in
  let b := ("b.txt", File (sample_stat 33188 owner mtime user) [Byte.x62]) in
  Dir (sample_stat 16877 owner mtime user) (if swap then [b; a] else [a; b]).

Definition listed_files (owner mtime : Z) (user : string) (swap : bool) : Files :=
  fun p =>
    if String.eqb p "." then Some (listed_tree owner mtime user swap) else None.

(** [norm] leaves the mode and the time stamp as they are. *)
Definition keeps_mode_mtime (norm : Stat -> Stat) : Prop :=
  forall st, st_mode (norm st) = st_mode st /\ st_mtime (norm st) = st_mtime st.

(** The order of the elements of a list under a key. *)
Definition key_le {A : Type} (key : A -> string) (x y : A) : Prop :=
  String.leb (key x) (key y) = true.

(** [s] holds no newline. *)
Definition no_LF (s : string) : bool :=
  all_chars (fun c => negb (Ascii.eqb c "010"%char)) s.

(** A line as the iteration over a text file yields it: text without a
    newline, followed by at most one. *)
Definition file_line (l : string) : Prop :=
  exists body, no_LF body = true /\ (l = body \/ l = body +:+ LF).

(** A line that starts with a character other than a blank or a tab. *)
Definition unindented (r : string) : bool :=
  match r with
  | String c _ => negb (is_blank c)
  | EmptyString => false
  end.

(** What stands before and after the package names in the text of the
    [apt.txt] script once [strip("\n")] has removed its first newline. *)
Definition script_head : string :=
  SP16 +:+ "apt-get -qq update && \" +:+ LF +:+
  SP16 +:+ "apt-get install --yes --no-install-recommends ".

Definition script_tail : string :=
  " && \" +:+ LF +:+
  SP16 +:+ "apt-get -qq purge && \" +:+ LF +:+
  SP16 +:+ "apt-get -qq clean && \" +:+ LF +:+
  SP16 +:+ "rm -rf /var/lib/apt/lists/*" +:+ LF +:+
  SP16.

(** The lines of that text without their indentation. *)
Definition script_bodies (pkgs : string) : list string :=
  [ "apt-get -qq update && \";
    "apt-get install --yes --no-install-recommends " +:+ pkgs +:+ " && \";
    "apt-get -qq purge && \";
    "apt-get -qq clean && \";
    "rm -rf /var/lib/apt/lists/*" ].


(** The body of a [RUN] directive. *)
Definition run_body (d : Directive) : option string :=
  match d with RUN body => Some body | USER _ => None end.

(** A line of [apt.txt] that the reader skips or accepts. *)
Definition line_ok (l : string) : bool :=
  match package_of l with
  | EmptyString => true
  | String c _ => pkg_char c
  end.

Definition not_hash (c : ascii) : bool := negb (Ascii.eqb c "#"%char).

(** The labels, the post-build scripts and the start script among a list
    of instructions. *)
Definition label_of (i : Instr) : option (string * string) :=
  match i with LABEL k v => Some (k, v) | _ => None end.

Definition post_build_of (i : Instr) : option string :=
  match i with POST_BUILD s => Some s | _ => None end.

Definition start_of (i : Instr) : option string :=
  match i with START s => Some s | _ => None end.

(** The key by which [dictsort] orders an item. *)
Definition lower_key (kv : string * string) : string := lower (fst kv).

(** The first lines of every Dockerfile. *)
Definition FROM_line : string :=
  LF +:+ "FROM buildpack-deps:bionic" +:+ LF +:+ LF.

(** A member whose numeric owner and group are [u] and whose owner and
    group names are empty. *)
Definition owned_by (u : Z) (m : Member) : Prop :=
  TarInfo.uid (fst m) = u /\ TarInfo.gid (fst m) = u /\
  TarInfo.uname (fst m) = EmptyString /\ TarInfo.gname (fst m) = EmptyString.

(** A member whose header gives the length of its bytes. *)
Definition sized (m : Member) : Prop :=
  TarInfo.size (fst m) = Z.of_nat (length (snd m)).

(** [int(build_args.get("NB_UID", 1000))] *)
Definition NB_UID (build_args : gmap string PyVal) : Res Z :=
  py_int (dict_get build_args "NB_UID" (PyInt 1000)).

Definition is_Ok {A : Type} (m : Res A) : bool :=
  match m with Ok _ => true | Raise _ => false end.

(** The limits [build] derives from the memory limit. *)
Definition derived_limits (memory_limit : PyVal) : PyVal :=
  PyDict (if truth memory_limit
          then {[ "memory" := memory_limit; "memswap" := memory_limit ]}
          else ∅).

(** A base class with a package, two labels and a staged build script. *)
Definition busy_super : BuildPack.t := {|
  BuildPack.get_packages := {[ "git" ]};
  BuildPack.get_path := [];
  BuildPack.get_build_env := [];
  BuildPack.get_env := [];
  BuildPack.get_labels := [("b", "1"); ("A", "2")];
  BuildPack.get_build_scripts := [];
  BuildPack.get_assemble_scripts := [];
  BuildPack.get_preassemble_scripts := Ok [];
  BuildPack.get_build_script_files := [("install.sh", "/tmp/install.sh")];
  BuildPack.get_preassemble_script_files := [];
  BuildPack.get_post_build_scripts := [];
  BuildPack.get_start_script := None;
  BuildPack.binder_path := fun p => p
|}.

(** A repository that holds [postBuild] and [start]. *)
Definition hook_repo : Repo := {|
  read_lines := fun _ => None;
  path_exists := fun p => String.eqb p "postBuild" || String.eqb p "start"
|}.

(** * Properties *)

(** ** The order of [str] *)

Lemma ascii_compare_lt_trans a b c :
  Ascii.compare a b = Lt -> Ascii.compare b c = Lt -> Ascii.compare a c = Lt.
Proof.
  unfold Ascii.compare. rewrite !N.compare_lt_iff. lia.
Qed.

Lemma string_compare_lt_trans s1 :
  forall s2 s3, String.compare s1 s2 = Lt -> String.compare s2 s3 = Lt ->
                String.compare s1 s3 = Lt.
Proof.
  induction s1 as [|a s1 IH]; intros [|b s2] [|c s3]; simpl; try congruence.
  destruct (Ascii.compare a b) eqn:Hab; try congruence;
    destruct (Ascii.compare b c) eqn:Hbc; try congruence; intros H12 H23.
  - apply Ascii.compare_eq_iff in Hab, Hbc. subst.
    replace (Ascii.compare c c) with Eq
      by (symmetry; unfold Ascii.compare; apply N.compare_refl).
    eauto.
  - apply Ascii.compare_eq_iff in Hab. subst. now rewrite Hbc.
  - apply Ascii.compare_eq_iff in Hbc. subst. now rewrite Hab.
  - now rewrite (ascii_compare_lt_trans a b c).
Qed.

Lemma string_compare_refl s : String.compare s s = Eq.
Proof.
  induction s as [|a s IH]; simpl; [reflexivity|].
  unfold Ascii.compare. now rewrite N.compare_refl.
Qed.

Lemma leb_refl s : String.leb s s = true.
Proof. unfold String.leb. now rewrite string_compare_refl. Qed.

Lemma leb_trans s1 s2 s3 :
  String.leb s1 s2 = true -> String.leb s2 s3 = true -> String.leb s1 s3 = true.
Proof.
  unfold String.leb.
  destruct (String.compare s1 s2) eqn:H12; try congruence;
    destruct (String.compare s2 s3) eqn:H23; try congruence; intros _ _.
  - apply String.compare_eq_iff in H12, H23. subst. now rewrite string_compare_refl.
  - apply String.compare_eq_iff in H12. subst. now rewrite H23.
  - apply String.compare_eq_iff in H23. subst. now rewrite H12.
  - now rewrite (string_compare_lt_trans _ _ _ H12 H23).
Qed.

Lemma leb_false_flip s1 s2 : String.leb s1 s2 = false -> String.leb s2 s1 = true.
Proof.
  intros H. destruct (String.leb_total s1 s2) as [H'|H']; congruence.
Qed.

(** ** [sorted] *)

Section SortedByFacts.
Context {A : Type} (key : A -> string).

Lemma insert_by_Permutation x l : insert_by key x l ≡ₚ x :: l.
Proof.
  induction l as [|y l IH]; simpl; [reflexivity|].
  destruct (String.leb (key x) (key y)); [reflexivity|].
  rewrite IH. apply perm_swap.
Qed.

Lemma sorted_by_Permutation l : sorted_by key l ≡ₚ l.
Proof.
  induction l as [|x l IH]; simpl; [reflexivity|].
  now rewrite insert_by_Permutation, IH.
Qed.

Lemma insert_by_HdRel z x l :
  key_le key z x -> HdRel (key_le key) z l ->
  HdRel (key_le key) z (insert_by key x l).
Proof.
  intros Hzx Hzl. destruct l as [|y l]; simpl; [now constructor|].
  destruct (String.leb (key x) (key y)); constructor; [assumption|].
  now inversion Hzl.
Qed.

Lemma insert_by_Sorted x l :
  Sorted (key_le key) l -> Sorted (key_le key) (insert_by key x l).
Proof.
  induction 1 as [|y l Hl IH Hy]; simpl; [repeat constructor|].
  destruct (String.leb (key x) (key y)) eqn:Hxy.
  - constructor; [now constructor|]. now constructor.
  - constructor; [assumption|].
    apply insert_by_HdRel; [|assumption].
    now apply leb_false_flip.
Qed.

Lemma sorted_by_Sorted l : Sorted (key_le key) (sorted_by key l).
Proof.
  induction l as [|x l IH]; simpl; [constructor|].
  now apply insert_by_Sorted.
Qed.

(** Sorting leaves a sorted list as it is. *)
Lemma sorted_by_fixed l : Sorted (key_le key) l -> sorted_by key l = l.
Proof.
  induction 1 as [|x l Hl IH Hx]; simpl; [reflexivity|].
  rewrite IH. destruct Hx as [|y l' Hxy]; simpl; [reflexivity|].
  unfold key_le in Hxy. now rewrite Hxy.
Qed.

Lemma sorted_by_idemp l : sorted_by key (sorted_by key l) = sorted_by key l.
Proof. apply sorted_by_fixed, sorted_by_Sorted. Qed.

#[local] Instance key_le_trans : Transitive (key_le key).
Proof. intros x y z. unfold key_le. apply leb_trans. Qed.

(** Two lists with the same elements, no two of them under one key, are
    sorted to the same list. *)
Lemma sorted_by_unique l1 l2 :
  NoDup (map key l1) -> l1 ≡ₚ l2 -> sorted_by key l1 = sorted_by key l2.
Proof.
  intros Hnd Hp.
  apply (Sorted_unique_strong (key_le key)); try apply sorted_by_Sorted.
  - intros x1 x2 Hx1 Hx2' H12 H21.
    rewrite sorted_by_Permutation in Hx1.
    assert (Hx2 : x2 ∈ l1).
    { rewrite Hp, <- (sorted_by_Permutation l2). assumption. }
    assert (Hk : key x1 = key x2) by now apply String.leb_antisym.
    clear H12 H21 Hp. revert Hnd Hx1 Hx2 Hk. clear. intros Hnd.
    induction l1 as [|y l IH]; simpl in Hnd;
      [intros H; now apply elem_of_nil in H|].
    apply NoDup_cons in Hnd as [Hy Hnd].
    intros Hx1 Hx2 Hk.
    apply elem_of_cons in Hx1 as [->|Hx1], Hx2 as [->|Hx2]; auto.
    + exfalso. apply Hy. rewrite Hk. now apply list_elem_of_fmap_2.
    + exfalso. apply Hy. rewrite <- Hk. now apply list_elem_of_fmap_2.
  - now rewrite !sorted_by_Permutation.
Qed.
End SortedByFacts.

(** A map that keeps the keys commutes with sorting. *)
Lemma sorted_by_map {A B : Type} (ka : A -> string) (kb : B -> string)
  (g : A -> B) l :
  (forall x, kb (g x) = ka x) ->
  sorted_by kb (map g l) = map g (sorted_by ka l).
Proof.
  intros Hk. induction l as [|x l IH]; simpl; [reflexivity|].
  rewrite IH. generalize (sorted_by ka l). clear IH. intros s.
  induction s as [|y s IH]; simpl; [reflexivity|].
  rewrite !Hk. destruct (String.leb (ka x) (ka y)); simpl; [reflexivity|].
  now rewrite IH.
Qed.

(** ** The directive loop *)

Lemma users_of_from_no_repeat scripts :
  forall last_user,
    no_repeat (last_user :: users_of (script_directives_from last_user scripts)).
Proof.
  induction scripts as [|[user script] rest IH]; intros last_user; simpl;
    [exact I|].
  destruct (String.eqb_spec last_user user) as [->|Hne]; simpl.
  - apply IH.
  - split; [assumption|]. apply IH.
Qed.

Lemma no_repeat_tail x l : no_repeat (x :: l) -> no_repeat l.
Proof. destruct l as [|y l]; simpl; [trivial|]. now intros [_ H]. Qed.

Lemma from_no_USER_USER scripts :
  forall last_user, no_USER_USER (script_directives_from last_user scripts).
Proof.
  induction scripts as [|[user script] rest IH]; intros last_user; simpl;
    [exact I|].
  destruct (negb (String.eqb last_user user)); simpl.
  - specialize (IH user). destruct (script_directives_from user rest); apply IH.
  - specialize (IH last_user).
    destruct (script_directives_from last_user rest); apply IH.
Qed.

Lemma from_same_user u scripts :
  Forall (fun s => fst s = u) scripts ->
  forall last_user,
    count is_RUN (script_directives_from last_user scripts) = length scripts /\
    count is_USER (script_directives_from last_user scripts)
    = if String.eqb last_user u || negb (truthy scripts) then 0 else 1.
Proof.
  induction 1 as [|[user script] rest Hu _ IH]; intros last_user; simpl.
  { split; [reflexivity|]. now rewrite orb_true_r. }
  simpl in Hu. subst user.
  destruct (String.eqb_spec last_user u) as [->|Hne]; simpl.
  - destruct (IH u) as [Hr Hs]. rewrite Hr, Hs, String.eqb_refl. now split.
  - destruct (IH u) as [Hr Hs]. rewrite Hr, Hs, String.eqb_refl. now split.
Qed.

(** C5 (as the code has it). The directive loop never emits two [USER]
    directives in a row, and no [USER] directive names the user of the
    [USER] directive before it. For [N] scripts that all run as one user it
    emits [N] [RUN] directives; it emits one [USER] directive when that user
    is not ["root"] and [N] is not zero, and none otherwise, since the loop
    starts as ["root"]. *)
Theorem script_directives_grouping (scripts : list (string * string)) :
  no_USER_USER (script_directives scripts) /\
  no_repeat (users_of (script_directives scripts)) /\
  forall u, Forall (fun s => fst s = u) scripts ->
    count is_RUN (script_directives scripts) = length scripts /\
    count is_USER (script_directives scripts)
    = if String.eqb u "root" || negb (truthy scripts) then 0 else 1.
Proof.
  unfold script_directives. split; [apply from_no_USER_USER|]. split.
  - apply (no_repeat_tail "root"), users_of_from_no_repeat.
  - intros u Hu. destruct (from_same_user u scripts Hu "root") as [Hr Hs].
    split; [assumption|]. now rewrite Hs, (String.eqb_sym "root" u).
Qed.

Lemma script_directives_grouping_witness :
  count is_RUN (script_directives [("nb", "make"); ("nb", "make install")]) = 2 /\
  count is_USER (script_directives [("nb", "make"); ("nb", "make install")]) = 1.
Proof.
  destruct (script_directives_grouping [("nb", "make"); ("nb", "make install")])
    as (_ & _ & H).
  destruct (H "nb") as [Hr Hs]; [repeat constructor|].
  split; [exact Hr | exact Hs].
Defined.

(** C5 (as stated) fails: one script run as ["root"] gives no [USER]
    directive, not one. *)
Lemma script_directives_root_counterexample :
  Forall (fun s => fst s = "root") [("root", "echo hi")] /\
  count is_USER (script_directives [("root", "echo hi")]) <> 1.
Proof. split; [repeat constructor|]. vm_compute. discriminate. Qed.

(** ** The template *)

Lemma count_app {A : Type} (p : A -> bool) l1 l2 :
  count p (l1 ++ l2) = count p l1 + count p l2.
Proof. induction l1 as [|x l1 IH]; simpl; [reflexivity|]. rewrite IH. lia. Qed.

Lemma count_map_none {A B : Type} (p : B -> bool) (f : A -> B) l :
  (forall x, p (f x) = false) -> count p (map f l) = 0.
Proof.
  intros H. induction l as [|x l IH]; simpl; [reflexivity|]. now rewrite H, IH.
Qed.

Lemma instructions_app a b :
  instructions (a ++ b) = instructions a ++ instructions b.
Proof. apply omap_app. Qed.

Lemma instructions_Ins {A : Type} (f : A -> Instr) l :
  instructions (map (fun x => Ins (f x)) l) = map f l.
Proof. induction l as [|x l IH]; [reflexivity|]. cbn. f_equal. exact IH. Qed.

Lemma instructions_when b l :
  instructions (when b l) = if b then instructions l else [].
Proof. now destruct b. Qed.

Lemma instructions_when_map {A : Type} (f : A -> Instr) l :
  instructions (when (truthy l) (map (fun x => Ins (f x)) l)) = map f l.
Proof. destruct l; [reflexivity|]. apply instructions_Ins. Qed.

Lemma instructions_when_dictsort (f : string * string -> Instr) l :
  instructions (when (truthy l) (map (fun x => Ins (f x)) (dictsort l)))
  = map f (dictsort l).
Proof. destruct l; [reflexivity|]. apply instructions_Ins. Qed.

Lemma instructions_when_post_build l :
  instructions
    (when (truthy l) (map (fun s => Ins (POST_BUILD s)) l ++ [Text LF]))
  = map POST_BUILD l.
Proof.
  destruct l; [reflexivity|]. unfold when, truthy.
  rewrite instructions_app, instructions_Ins. apply app_nil_r.
Qed.

(** The instructions of the rendered template are its build plan. *)
Lemma TEMPLATE_build_plan c : instructions (TEMPLATE c) = build_plan c.
Proof.
  unfold TEMPLATE, build_plan.
  rewrite !instructions_app, instructions_when_post_build,
    !instructions_when_map, !instructions_when_dictsort,
    !instructions_Ins, !instructions_when.
  destruct (start_script c); cbn [instructions omap list_omap app];
    now rewrite app_nil_r.
Qed.

Lemma count_if_single {A : Type} (p : A -> bool) (b : bool) x :
  count p (if b then [x] else []) = if b && p x then 1 else 0.
Proof. destruct b; simpl; [|reflexivity]. now destruct (p x). Qed.

Lemma build_plan_CHOWN_REPO c :
  count is_CHOWN_REPO (build_plan c)
  = if truthy (preassemble_script_directives c) then 1 else 0.
Proof.
  unfold build_plan.
  rewrite !count_app, !count_map_none, !count_if_single by reflexivity.
  cbn [is_CHOWN_REPO count]. rewrite !andb_false_r, andb_true_r.
  destruct (start_script c); cbn [is_CHOWN_REPO count];
    destruct (truthy (preassemble_script_directives c)); reflexivity.
Qed.

Lemma omap_map_none {A B C : Type} (sel : B -> option C) (f : A -> B) l :
  (forall x, sel (f x) = None) -> omap sel (map f l) = [].
Proof.
  intros H. induction l as [|x l IH]; [reflexivity|]. cbn. now rewrite H.
Qed.

Lemma omap_map_some {A B : Type} (sel : B -> option A) (f : A -> B) l :
  (forall x, sel (f x) = Some x) -> omap sel (map f l) = l.
Proof.
  intros H. induction l as [|x l IH]; [reflexivity|]. cbn. rewrite H.
  f_equal. exact IH.
Qed.

Lemma omap_if_none {B C : Type} (sel : B -> option C) (b : bool) x :
  sel x = None -> omap sel (if b then [x] else []) = [].
Proof. intros H. destruct b; [|reflexivity]. cbn. now rewrite H. Qed.

Lemma build_plan_preassemble c :
  omap preassemble_of (build_plan c) = preassemble_script_directives c.
Proof.
  unfold build_plan. rewrite !omap_app.
  rewrite (omap_map_some preassemble_of (SCRIPT PreAssemble)) by reflexivity.
  rewrite !omap_map_none, !omap_if_none by reflexivity.
  destruct (start_script c); cbn; apply app_nil_r.
Qed.

Lemma build_plan_install c :
  omap install_of (build_plan c)
  = if truthy (packages c) then [packages c] else [].
Proof.
  unfold build_plan. rewrite !omap_app.
  set (install := if truthy (packages c) then [INSTALL (packages c)] else []).
  rewrite !omap_map_none, !omap_if_none by reflexivity.
  subst install. destruct (start_script c), (truthy (packages c)); reflexivity.
Qed.

Lemma script_directives_from_truthy scripts last_user :
  truthy (script_directives_from last_user scripts) = truthy scripts.
Proof.
  destruct scripts as [|[user script] rest]; simpl; [reflexivity|].
  now destruct (negb (String.eqb last_user user)).
Qed.

Lemma render_items_Ok self scripts :
  BuildPack.get_preassemble_scripts self = Ok scripts ->
  PlainBuildPack.render_items self
  = Ok (TEMPLATE (PlainBuildPack.context self (script_directives scripts))).
Proof. unfold PlainBuildPack.render_items. now intros ->. Qed.

Lemma render_text self doc :
  PlainBuildPack.render_items self = Ok doc ->
  PlainBuildPack.render self = Ok (document_text doc).
Proof. unfold PlainBuildPack.render. now intros ->. Qed.

(** C4 (as the code has it). The rendered document holds exactly one
    ownership fix-up ([USER root] and the recursive [chown]) when the
    pre-assembly script list is not empty, and none when it is empty; the
    pre-assembly file copies play no part. *)
Theorem chown_follows_preassemble_scripts (self : BuildPack.t)
  (scripts : list (string * string)) :
  BuildPack.get_preassemble_scripts self = Ok scripts ->
  exists doc,
    PlainBuildPack.render_items self = Ok doc /\
    PlainBuildPack.render self = Ok (document_text doc) /\
    count is_CHOWN_REPO (instructions doc) = if truthy scripts then 1 else 0.
Proof.
  intros Hs. pose proof (render_items_Ok _ _ Hs) as Hdoc.
  eexists. split; [exact Hdoc|]. split; [exact (render_text _ _ Hdoc)|].
  rewrite TEMPLATE_build_plan, build_plan_CHOWN_REPO. simpl.
  unfold script_directives. now rewrite script_directives_from_truthy.
Qed.

Lemma chown_follows_preassemble_scripts_witness :
  exists doc,
    PlainBuildPack.render_items (PlainBuildPack.new bare_super (apt_repo ["git"]))
    = Ok doc /\
    count is_CHOWN_REPO (instructions doc) = 1.
Proof.
  destruct (chown_follows_preassemble_scripts
              (PlainBuildPack.new bare_super (apt_repo ["git"]))
              [("root", apt_script "git")]) as (doc & Hdoc & _ & Hn).
  - reflexivity.
  - exists doc. split; [exact Hdoc | exact Hn].
Defined.

(** C4 (as stated) fails: with a file staged before assembly and no
    [apt.txt], the document holds no ownership fix-up. *)
Lemma chown_staged_files_counterexample :
  BuildPack.get_preassemble_script_files
    (PlainBuildPack.new staging_super bare_repo) <> [] /\
  exists doc,
    PlainBuildPack.render_items (PlainBuildPack.new staging_super bare_repo)
    = Ok doc /\
    count is_CHOWN_REPO (instructions doc) = 0.
Proof.
  split; [discriminate|]. eexists. split; [reflexivity|]. vm_compute. reflexivity.
Qed.

(** ** An empty configuration *)

(** C2 (as the code has it). For a build pack with nothing configured, the
    document holds the base-image instruction, then the [ENTRYPOINT] and
    [CMD] instructions that [render] always asks for, and nothing else. *)
Theorem empty_config_document (self : BuildPack.t) :
  empty_config self ->
  PlainBuildPack.render self = Ok bare_dockerfile /\
  exists doc,
    PlainBuildPack.render_items self = Ok doc /\
    instructions doc
    = [FROM_IMAGE; ENTRYPOINT "my_entrypoint"; CMD "my_command"].
Proof.
  destruct self; unfold empty_config; simpl.
  intros (-> & -> & -> & -> & -> & -> & -> & -> & -> & -> & -> & ->).
  split; [vm_compute; reflexivity|].
  eexists. split; [reflexivity|]. vm_compute. reflexivity.
Qed.

Lemma empty_config_document_witness :
  PlainBuildPack.render (PlainBuildPack.new bare_super bare_repo)
  = Ok bare_dockerfile.
Proof.
  apply (empty_config_document (PlainBuildPack.new bare_super bare_repo)).
  repeat split; reflexivity.
Defined.

(** C2 (as stated) fails: the document of a build pack with nothing
    configured does not hold the base-image instruction alone. *)
Lemma empty_config_counterexample :
  empty_config (PlainBuildPack.new bare_super bare_repo) /\
  ~ exists doc,
      PlainBuildPack.render_items (PlainBuildPack.new bare_super bare_repo)
      = Ok doc /\
      instructions doc = [FROM_IMAGE].
Proof.
  split; [repeat split; reflexivity|].
  intros (doc & Hdoc & Hins). vm_compute in Hdoc.
  injection Hdoc as <-. vm_compute in Hins. discriminate Hins.
Qed.

(** ** The [apt.txt] reader *)

Lemma read_apt_blank lines :
  Forall (fun l => package_of l = EmptyString) lines ->
  forall acc, read_apt lines acc = Ok acc.
Proof.
  induction 1 as [|l rest Hl _ IH]; intros acc; simpl; [reflexivity|].
  fold (package_of l). rewrite Hl. simpl. apply IH.
Qed.

(** C10. When [apt.txt] exists and each of its lines is empty or a comment,
    the pre-assembly script list still holds exactly one step, run as
    ["root"], whose install command names no package; the document then
    holds that [RUN] instruction and, since the template tests the
    pre-assembly directives, one ownership fix-up. *)
Theorem blank_apt_txt_still_installs (super : BuildPack.t) (repo : Repo)
  (lines : list string) :
  read_lines repo (BuildPack.binder_path super "apt.txt") = Some lines ->
  Forall (fun l => package_of l = EmptyString) lines ->
  BuildPack.get_preassemble_scripts (PlainBuildPack.new super repo)
  = Ok [("root", apt_script EmptyString)] /\
  exists doc,
    PlainBuildPack.render_items (PlainBuildPack.new super repo) = Ok doc /\
    omap preassemble_of (instructions doc)
    = [RUN (install_command EmptyString)] /\
    count is_CHOWN_REPO (instructions doc) = 1.
Proof.
  intros Hread Hblank.
  assert (Hs : BuildPack.get_preassemble_scripts (PlainBuildPack.new super repo)
               = Ok [("root", apt_script EmptyString)]).
  { simpl. rewrite Hread. unfold PlainBuildPack.get_preassemble_scripts.
    now rewrite (read_apt_blank lines Hblank []). }
  split; [exact Hs|].
  pose proof (render_items_Ok _ _ Hs) as Hdoc.
  eexists. split; [exact Hdoc|].
  rewrite TEMPLATE_build_plan, build_plan_CHOWN_REPO.
  split; [apply build_plan_preassemble | reflexivity].
Qed.

Lemma blank_apt_txt_still_installs_witness :
  BuildPack.get_preassemble_scripts
    (PlainBuildPack.new bare_super (apt_repo ["# tools"; "   "; LF]))
  = Ok [("root", apt_script EmptyString)].
Proof.
  apply (blank_apt_txt_still_installs bare_super
           (apt_repo ["# tools"; "   "; LF]) ["# tools"; "   "; LF]).
  - reflexivity.
  - repeat constructor.
Defined.

Lemma read_apt_app before :
  forall acc pkgs more,
    read_apt before acc = Ok pkgs ->
    read_apt (before ++ more) acc = read_apt more pkgs.
Proof.
  induction before as [|l before IH]; intros acc pkgs more; simpl.
  { now intros [= ->]. }
  destruct (negb (nonempty (strip (partition0 "#" l)))); [apply IH|].
  destruct (re_match_pkg (strip (partition0 "#" l))); [apply IH|discriminate].
Qed.

Lemma re_match_pkg_head c rest :
  matched (re_match_pkg (String c rest)) = pkg_char c.
Proof. unfold re_match_pkg. simpl. now destruct (pkg_char c). Qed.

Lemma read_apt_skip l rest acc :
  package_of l = EmptyString -> read_apt (l :: rest) acc = read_apt rest acc.
Proof. unfold package_of. simpl. now intros ->. Qed.

Lemma read_apt_reject l rest acc c s :
  package_of l = String c s -> pkg_char c = false ->
  read_apt (l :: rest) acc = Raise (InvalidPackageName (String c s)).
Proof.
  unfold package_of. simpl. intros -> Hc. simpl.
  pose proof (re_match_pkg_head c s) as Hm. rewrite Hc in Hm.
  now destruct (re_match_pkg (String c s)).
Qed.

Lemma read_apt_accept l rest acc c s :
  package_of l = String c s -> pkg_char c = true ->
  read_apt (l :: rest) acc = read_apt rest (acc ++ [String c s]).
Proof.
  unfold package_of. simpl. intros -> Hc. simpl.
  pose proof (re_match_pkg_head c s) as Hm. rewrite Hc in Hm.
  now destruct (re_match_pkg (String c s)).
Qed.

Lemma partition0_comment c p comment :
  all_chars (fun a => negb (Ascii.eqb a c)) p = true ->
  partition0 c (p +:+ String c comment) = p.
Proof.
  induction p as [|a p IH]; simpl.
  - now rewrite Ascii.eqb_refl.
  - destruct (Ascii.eqb a c); simpl; [discriminate|]. intros H. now rewrite IH.
Qed.


(** C9. The check of a package name looks at its first character only: a
    non-empty remainder passes exactly when that character is in
    [[a-z0-9.+-]]. So a line such as [curl; rm -rf /] passes, although it
    holds characters outside the class, and it stands unchanged in the
    install command of the Dockerfile. *)
Theorem package_check_is_prefix_only :
  (forall c rest, matched (re_match_pkg (String c rest)) = pkg_char c) /\
  all_chars pkg_char injected_line = false /\
  BuildPack.get_preassemble_scripts
    (PlainBuildPack.new bare_super (apt_repo [injected_line]))
  = Ok [("root", apt_script injected_line)] /\
  exists doc,
    PlainBuildPack.render_items
      (PlainBuildPack.new bare_super (apt_repo [injected_line])) = Ok doc /\
    omap preassemble_of (instructions doc)
    = [RUN (install_command injected_line)].
Proof.
  split; [apply re_match_pkg_head|]. split; [reflexivity|].
  split; [reflexivity|]. eexists. split; [reflexivity|].
  vm_compute. reflexivity.
Qed.

(** ** The text of the [apt.txt] step

    [render] puts the script through [strip("\n")] and [textwrap.dedent].
    For a package list without a newline the result is the install
    command, each line without its sixteen blanks. *)

Lemma rstrip_with_app drop s1 s2 :
  rstrip_with drop s2 <> EmptyString ->
  rstrip_with drop (s1 +:+ s2) = s1 +:+ rstrip_with drop s2.
Proof.
  intros H. induction s1 as [|c s1 IH]; [reflexivity|].
  change (String c s1 +:+ s2) with (String c (s1 +:+ s2)).
  change (String c s1 +:+ rstrip_with drop s2)
    with (String c (s1 +:+ rstrip_with drop s2)).
  simpl. rewrite IH. destruct (s1 +:+ rstrip_with drop s2) eqn:E; [|reflexivity].
  destruct s1; [contradiction|discriminate].
Qed.

Lemma split_on_cons c s : exists h t, split_on c s = h :: t.
Proof.
  induction s as [|a s (h & t & IH)]; simpl; [eauto|].
  destruct (Ascii.eqb a c); [eauto|]. rewrite IH. eauto.
Qed.

Lemma split_on_no_LF s1 s2 :
  no_LF s1 = true ->
  split_on "010" (s1 +:+ s2)
  = match split_on "010" s2 with
    | h :: t => (s1 +:+ h) :: t
    | [] => [s1]
    end.
Proof.
  intros H. induction s1 as [|c s1 IH].
  - change (EmptyString +:+ s2) with s2.
    now destruct (split_on_cons "010" s2) as (h & t & ->).
  - change (String c s1 +:+ s2) with (String c (s1 +:+ s2)).
    simpl in H. apply andb_true_iff in H as [Hc H].
    simpl. destruct (Ascii.eqb c "010"); [discriminate|].
    rewrite (IH H). now destruct (split_on "010" s2).
Qed.

Lemma substring_all s : String.substring 0 (String.length s) s = s.
Proof. induction s as [|c s IH]; simpl; [reflexivity|]. now rewrite IH. Qed.

Lemma append_cons c s t : String c s +:+ t = String c (s +:+ t).
Proof. reflexivity. Qed.

Lemma append_nil t : EmptyString +:+ t = t.
Proof. reflexivity. Qed.

Lemma append_assoc (s1 s2 s3 : string) : (s1 +:+ s2) +:+ s3 = s1 +:+ (s2 +:+ s3).
Proof. induction s1 as [|c s1 IH]; [reflexivity|]. rewrite !append_cons. now rewrite IH. Qed.

Ltac push_append := repeat (rewrite append_cons || rewrite append_nil).

Lemma apt_script_parts pkgs :
  apt_script pkgs = LF +:+ script_head +:+ pkgs +:+ script_tail.
Proof.
  unfold apt_script, script_head, script_tail. now rewrite !append_assoc.
Qed.

Lemma strip_newlines_apt_script pkgs :
  strip_newlines (apt_script pkgs) = script_head +:+ pkgs +:+ script_tail.
Proof.
  rewrite apt_script_parts. unfold strip_newlines, strip_with.
  change (lstrip_with (Ascii.eqb "010") (LF +:+ script_head +:+ pkgs +:+ script_tail))
    with (script_head +:+ pkgs +:+ script_tail).
  assert (Ht : rstrip_with (Ascii.eqb "010") script_tail = script_tail)
    by reflexivity.
  assert (Hp : rstrip_with (Ascii.eqb "010") (pkgs +:+ script_tail)
               = pkgs +:+ script_tail).
  { rewrite rstrip_with_app; rewrite Ht; [reflexivity|discriminate]. }
  rewrite rstrip_with_app; rewrite Hp; [reflexivity|].
  destruct pkgs; discriminate.
Qed.

Lemma no_LF_app s1 s2 : no_LF (s1 +:+ s2) = no_LF s1 && no_LF s2.
Proof.
  unfold no_LF. induction s1 as [|c s1 IH]; [reflexivity|].
  rewrite append_cons. simpl. rewrite IH. now rewrite andb_assoc.
Qed.

Lemma split_on_line l rest :
  no_LF l = true ->
  split_on "010" (l +:+ LF +:+ rest) = l :: split_on "010" rest.
Proof.
  intros H. rewrite (split_on_no_LF l) by exact H.
  change (split_on "010" (LF +:+ rest)) with (EmptyString :: split_on "010" rest).
  f_equal. induction l as [|c l IH]; [reflexivity|].
  rewrite append_cons. f_equal. apply IH.
  simpl in H. unfold no_LF in *. simpl in H. now apply andb_true_iff in H as [_ H].
Qed.

Lemma split_on_join l ls :
  Forall (fun x => no_LF x = true) (l :: ls) ->
  split_on "010" (join LF (l :: ls)) = l :: ls.
Proof.
  revert l. induction ls as [|l' ls IH]; intros l Hl.
  - simpl. apply Forall_cons in Hl as [Hl _].
    pose proof (split_on_no_LF l EmptyString Hl) as E. simpl in E.
    replace (l +:+ EmptyString) with l in E; [exact E|].
    clear. induction l as [|c l IH]; [reflexivity|]. rewrite append_cons. now f_equal.
  - apply Forall_cons in Hl as [Hl Hls].
    change (join LF (l :: l' :: ls)) with (l +:+ LF +:+ join LF (l' :: ls)).
    rewrite (split_on_line l _ Hl). f_equal. now apply IH.
Qed.

Section IndentedLine.
Variable r : string.
Hypothesis Hr : unindented r = true.

Lemma blank_line_indented : blank_line (SP16 +:+ r) = SP16 +:+ r.
Proof.
  destruct r as [|c r']; [discriminate|]. simpl in Hr. apply negb_true_iff in Hr.
  unfold blank_line, SP16. push_append. cbn -[is_blank]. now rewrite Hr.
Qed.

Lemma leading_whitespace_indented : leading_whitespace (SP16 +:+ r) = Some SP16.
Proof.
  destruct r as [|c r']; [discriminate|]. simpl in Hr. apply negb_true_iff in Hr.
  unfold leading_whitespace, SP16. push_append. cbn -[is_blank]. now rewrite Hr.
Qed.

Lemma cut_margin_indented : cut_margin SP16 (SP16 +:+ r) = r.
Proof.
  unfold cut_margin, SP16. push_append. cbn.
  rewrite ?Nat.sub_0_r.
  replace (String.prefix EmptyString r) with true by (now destruct r).
  apply substring_all.
Qed.
End IndentedLine.

Lemma dedent_block body bodies :
  Forall (fun r => unindented r = true) (body :: bodies) ->
  Forall (fun r => no_LF r = true) (body :: bodies) ->
  dedent (join LF (map (String.append SP16) (body :: bodies) ++ [SP16]))
  = join LF (body :: bodies ++ [EmptyString]).
Proof.
  intros Hu Hn. unfold dedent.
  change (map (String.append SP16) (body :: bodies) ++ [SP16])
    with ((SP16 +:+ body) :: (map (String.append SP16) bodies ++ [SP16])).
  rewrite split_on_join.
  2:{ change ((SP16 +:+ body) :: (map (String.append SP16) bodies ++ [SP16]))
        with (map (String.append SP16) (body :: bodies) ++ [SP16]).
      apply Forall_app. split; [|repeat constructor].
      apply Forall_map. eapply Forall_impl; [exact Hn|].
      intros x Hx. simpl. now rewrite no_LF_app, Hx. }
  change ((SP16 +:+ body) :: (map (String.append SP16) bodies ++ [SP16]))
    with (map (String.append SP16) (body :: bodies) ++ [SP16]).
  assert (Hb : map blank_line (map (String.append SP16) (body :: bodies) ++ [SP16])
               = map (String.append SP16) (body :: bodies) ++ [EmptyString]).
  { rewrite map_app. f_equal. rewrite map_map.
    apply map_ext_Forall. eapply Forall_impl; [exact Hu|].
    intros x Hx. now apply blank_line_indented. }
  rewrite Hb. clear Hb.
  assert (Hm : fold_left margin_step
                 (omap leading_whitespace
                    (map (String.append SP16) (body :: bodies) ++ [EmptyString]))
                 None = Some SP16).
  { rewrite omap_app. change (omap leading_whitespace [EmptyString]) with (@nil string).
    rewrite app_nil_r. 
    change (map (String.append SP16) (body :: bodies))
      with ((SP16 +:+ body) :: map (String.append SP16) bodies).
    cbn [omap list_omap].
    apply Forall_cons in Hu as [Hu Hus].
    rewrite (leading_whitespace_indented body Hu). cbn [fold_left margin_step].
    clear Hn Hu. induction Hus as [|x xs Hx _ IH]; [reflexivity|].
    cbn [map omap list_omap]. rewrite (leading_whitespace_indented x Hx).
    cbn [fold_left margin_step]. exact IH. }
  rewrite Hm. change SP16 with (String " " "               ") at 1.
  cbv beta iota. change (String " " "               ") with SP16.
  f_equal. rewrite map_app. 
  change (body :: bodies ++ [EmptyString]) with ((body :: bodies) ++ [EmptyString]).
  f_equal. rewrite map_map.
  rewrite <- (map_id (body :: bodies)) at 2.
  apply map_ext_Forall. eapply Forall_impl; [exact Hu|].
  intros x Hx. now apply cut_margin_indented.
Qed.

Lemma apt_directive_text pkgs :
  no_LF pkgs = true -> apt_directive pkgs = RUN (install_command pkgs).
Proof.
  intros H. unfold apt_directive. f_equal.
  rewrite strip_newlines_apt_script.
  assert (E : script_head +:+ pkgs +:+ script_tail
              = join LF (map (String.append SP16) (script_bodies pkgs) ++ [SP16])).
  { unfold script_head, script_tail, script_bodies, join.
    cbn [map app String.concat]. now rewrite !append_assoc. }
  rewrite E. unfold script_bodies. rewrite dedent_block.
  - unfold install_command, join. cbn [app String.concat].
    now rewrite !append_assoc.
  - repeat constructor.
  - repeat constructor. now rewrite !no_LF_app, H.
Qed.

Lemma no_LF_rstrip p s : no_LF s = true -> no_LF (rstrip_with p s) = true.
Proof.
  unfold no_LF. induction s as [|c s IH]; simpl; [reflexivity|].
  intros H. apply andb_true_iff in H as [Hc H]. specialize (IH H).
  destruct (rstrip_with p s); simpl in *.
  - destruct (p c); simpl; [reflexivity|]. now rewrite Hc.
  - now rewrite Hc.
Qed.

Lemma no_LF_lstrip p s : no_LF s = true -> no_LF (lstrip_with p s) = true.
Proof.
  unfold no_LF. induction s as [|c s IH]; simpl; [reflexivity|].
  intros H. destruct (p c); [|exact H].
  apply andb_true_iff in H as [_ H]. auto.
Qed.

Lemma no_LF_partition0 c s : no_LF s = true -> no_LF (partition0 c s) = true.
Proof.
  unfold no_LF. induction s as [|a s IH]; simpl; [reflexivity|].
  intros H. apply andb_true_iff in H as [Ha H].
  destruct (Ascii.eqb a c); simpl; [reflexivity|]. now rewrite Ha, IH.
Qed.

Lemma rstrip_LF s : rstrip_with isspace (s +:+ LF) = rstrip_with isspace s.
Proof.
  induction s as [|c s IH]; [reflexivity|].
  rewrite append_cons. simpl. now rewrite IH.
Qed.

Lemma strip_LF s : strip (s +:+ LF) = strip s.
Proof.
  unfold strip, strip_with. induction s as [|c s IH]; [reflexivity|].
  rewrite append_cons. simpl. destruct (isspace c); [exact IH|].
  rewrite <- append_cons. apply rstrip_LF.
Qed.

Lemma package_of_LF body : package_of (body +:+ LF) = package_of body.
Proof.
  unfold package_of.
  assert (H : partition0 "#" (body +:+ LF) = partition0 "#" body \/
              partition0 "#" (body +:+ LF) = partition0 "#" body +:+ LF).
  { induction body as [|a s IH]; [now right|].
    rewrite append_cons. simpl. destruct (Ascii.eqb a "#"); [now left|].
    destruct IH as [->| ->]; [now left | now right]. }
  destruct H as [->| ->]; [reflexivity | apply strip_LF].
Qed.

Lemma package_of_no_LF l : file_line l -> no_LF (package_of l) = true.
Proof.
  intros (body & Hb & [->| ->]); [|rewrite package_of_LF];
    apply no_LF_rstrip, no_LF_lstrip, no_LF_partition0, Hb.
Qed.

Lemma no_LF_join l :
  Forall (fun s => no_LF s = true) l -> no_LF (join " " l) = true.
Proof.
  induction 1 as [|s l Hs Hl IH]; [reflexivity|].
  destruct l as [|s' l]; [exact Hs|].
  change (join " " (s :: s' :: l)) with (s +:+ " " +:+ join " " (s' :: l)).
  now rewrite !no_LF_app, Hs, IH.
Qed.

Lemma kept_names_no_LF lines :
  Forall file_line lines ->
  no_LF (join " " (sorted (kept_names lines))) = true.
Proof.
  intros Hl. apply no_LF_join. unfold sorted.
  rewrite (sorted_by_Permutation id). unfold kept_names.
  apply Forall_forall. intros x Hx. apply list_elem_of_In, filter_In in Hx as [Hx _].
  apply in_map_iff in Hx as (l & <- & Hin). apply package_of_no_LF.
  rewrite Forall_forall in Hl. now apply Hl, list_elem_of_In.
Qed.

(** ** Package lists *)

Lemma read_apt_kept lines :
  forall acc pkgs,
    read_apt lines acc = Ok pkgs -> pkgs = acc ++ kept_names lines.
Proof.
  unfold kept_names.
  induction lines as [|l lines IH]; intros acc pkgs; simpl.
  { intros [= ->]. now rewrite app_nil_r. }
  fold (package_of l). destruct (nonempty (package_of l)); simpl; [|apply IH].
  destruct (re_match_pkg (package_of l)); [|discriminate].
  intros H. apply IH in H. now rewrite <- app_assoc in H.
Qed.

Lemma sorted_set_spec (s : gset string) :
  Sorted str_le (sorted_set s) /\
  NoDup (sorted_set s) /\
  forall x, x ∈ sorted_set s <-> x ∈ s.
Proof.
  unfold sorted_set, sorted. split; [|split].
  - apply (sorted_by_Sorted id).
  - rewrite (sorted_by_Permutation id). apply NoDup_elements.
  - intros x. rewrite (sorted_by_Permutation id). apply elem_of_elements.
Qed.

(** C6 (as the code has it). The explicit install instruction lists the
    package set in sorted order, each name once. The [apt.txt] install
    command lists the names the reader kept in sorted order, each as many
    times as the file names it: a name given twice is listed twice. For
    the lines of a text file this list stands as it is in the [RUN]
    directive of the step. *)
Theorem install_lists_are_sorted :
  (forall self scripts,
      BuildPack.get_preassemble_scripts self = Ok scripts ->
      exists doc,
        PlainBuildPack.render_items self = Ok doc /\
        omap install_of (instructions doc)
        = (if truthy (sorted_set (BuildPack.get_packages self))
           then [sorted_set (BuildPack.get_packages self)] else []) /\
        Sorted str_le (sorted_set (BuildPack.get_packages self)) /\
        NoDup (sorted_set (BuildPack.get_packages self)) /\
        forall x, x ∈ sorted_set (BuildPack.get_packages self)
                  <-> x ∈ BuildPack.get_packages self) /\
  (forall lines pkgs,
      read_apt lines [] = Ok pkgs ->
      PlainBuildPack.get_preassemble_scripts (Some lines)
      = Ok [("root", apt_script (join " " (sorted (kept_names lines))))] /\
      Sorted str_le (sorted (kept_names lines)) /\
      sorted (kept_names lines) ≡ₚ kept_names lines /\
      (Forall file_line lines ->
       script_directives
         [("root", apt_script (join " " (sorted (kept_names lines))))]
       = [RUN (install_command (join " " (sorted (kept_names lines))))])).
Proof.
  split.
  - intros self scripts Hs. pose proof (render_items_Ok _ _ Hs) as Hdoc.
    eexists. split; [exact Hdoc|].
    rewrite TEMPLATE_build_plan, build_plan_install.
    split; [reflexivity|]. apply sorted_set_spec.
  - intros lines pkgs Hread.
    pose proof (read_apt_kept lines [] pkgs Hread) as Hp. simpl in Hp. subst pkgs.
    unfold PlainBuildPack.get_preassemble_scripts. rewrite Hread.
    split; [reflexivity|]. split; [apply (sorted_by_Sorted id)|].
    split; [apply (sorted_by_Permutation id)|].
    intros Hlines. unfold script_directives. simpl.
    fold (apt_directive (join " " (sorted (kept_names lines)))).
    now rewrite apt_directive_text by now apply kept_names_no_LF.
Qed.

Lemma install_lists_are_sorted_witness :
  PlainBuildPack.get_preassemble_scripts (Some ["vim"; "# editors"; "git"])
  = Ok [("root", apt_script "git vim")] /\
  script_directives [("root", apt_script "git vim")]
  = [RUN (install_command "git vim")].
Proof.
  destruct install_lists_are_sorted as [_ H].
  destruct (H ["vim"; "# editors"; "git"] ["vim"; "git"] eq_refl)
    as (Hs & _ & _ & Hrun).
  split; [exact Hs|]. apply Hrun.
  repeat constructor; (eexists; split; [|left; reflexivity]; reflexivity).
Defined.

(** C6 (as stated) fails for [apt.txt]: a name that the file gives twice
    stands twice in the install command. *)
Lemma apt_duplicates_counterexample :
  PlainBuildPack.get_preassemble_scripts (Some ["curl"; "git"; "curl"])
  = Ok [("root", apt_script "curl curl git")] /\
  count (String.eqb "curl") (sorted (kept_names ["curl"; "git"; "curl"])) = 2.
Proof. split; reflexivity. Qed.

(** ** [build]: the memory limit *)

(** C3 (as the code has it). With a memory limit that is not an [int],
    [build] raises and never calls the engine. The check stands after the
    archive: when the Dockerfile renders and the files are added, the
    archive is written and closed first and the error is
    [InvalidResourceLimit]; when rendering or adding fails, that earlier
    error is raised and no archive is closed. *)
Theorem non_int_memory_limit_fails (self : BuildPack.t) (fs : Files)
  (module_dir : string) (client : Client) (image_spec memory_limit : PyVal)
  (build_args : gmap string PyVal) (cache_from : PyVal)
  (extra_build_kwargs : gmap string PyVal) :
  isinstance_int memory_limit = false ->
  let run := PlainBuildPack.build self fs module_dir client image_spec
               memory_limit build_args cache_from extra_build_kwargs in
  count is_ClientBuild (fst run) = 0 /\
  fst (snd run) = [] /\
  match PlainBuildPack.archive self fs module_dir build_args with
  | Ok tarf =>
      fst run = [TarClose tarf] /\
      snd (snd run) = Some (InvalidResourceLimit memory_limit)
  | Raise e => fst run = [] /\ snd (snd run) = Some e
  end.
Proof.
  intros Hint. unfold PlainBuildPack.build.
  destruct (PlainBuildPack.archive self fs module_dir build_args) as [tarf|e];
    [rewrite Hint|]; simpl; auto.
Qed.

Lemma non_int_memory_limit_fails_witness :
  isinstance_int (PyStr "512") = false /\
  count is_ClientBuild
    (fst (PlainBuildPack.build (PlainBuildPack.new bare_super bare_repo)
            (sample_files 0 0 "root") "/opt/plain" sample_client
            (PyStr "image") (PyStr "512") ∅ (PyList []) ∅))
  = 0.
Proof.
  split; [reflexivity|].
  exact (proj1 (non_int_memory_limit_fails
                  (PlainBuildPack.new bare_super bare_repo)
                  (sample_files 0 0 "root") "/opt/plain" sample_client
                  (PyStr "image") (PyStr "512") ∅ (PyList []) ∅ eq_refl)).
Defined.

(** C3 (as stated) fails: with the memory limit ["512"] the archive is
    written and closed before the error is raised. *)
Lemma non_int_memory_limit_counterexample :
  exists tarf,
    tarf <> [] /\
    fst (PlainBuildPack.build (PlainBuildPack.new bare_super bare_repo)
           (sample_files 0 0 "root") "/opt/plain" sample_client (PyStr "image")
           (PyStr "512") ∅ (PyList []) ∅)
    = [TarClose tarf].
Proof. eexists. split; [|vm_compute; reflexivity]. discriminate. Qed.

(** C8 (as the code has it). For an integer memory limit [m] other than
    zero, [build] passes [{memory: m, memswap: m}] as [container_limits],
    and this is what the engine is called with unless the caller's extra
    options hold a [container_limits] of their own, which [update] puts in
    its place. *)
Theorem memory_limit_sets_memswap (self : BuildPack.t) (fs : Files)
  (module_dir : string) (client : Client) (image_spec : PyVal) (m : Z)
  (build_args : gmap string PyVal) (cache_from : PyVal)
  (extra_build_kwargs : gmap string PyVal) (tarf : list Member) :
  m <> 0%Z ->
  extra_build_kwargs !! "container_limits" = None ->
  PlainBuildPack.archive self fs module_dir build_args = Ok tarf ->
  exists build_kwargs,
    fst (PlainBuildPack.build self fs module_dir client image_spec (PyInt m)
           build_args cache_from extra_build_kwargs)
    = [TarClose tarf; ClientBuild build_kwargs] /\
    build_kwargs !! "container_limits"
    = Some (PyDict {[ "memory" := PyInt m; "memswap" := PyInt m ]}).
Proof.
  intros Hm Hextra Ha. unfold PlainBuildPack.build. rewrite Ha. simpl.
  apply Z.eqb_neq in Hm. rewrite Hm. simpl.
  eexists. split; [reflexivity|].
  rewrite lookup_union_r by exact Hextra.
  now simplify_map_eq.
Qed.

Lemma memory_limit_sets_memswap_witness :
  exists build_kwargs,
    In (ClientBuild build_kwargs)
       (fst (PlainBuildPack.build (PlainBuildPack.new bare_super bare_repo)
               (sample_files 0 0 "root") "/opt/plain" sample_client
               (PyStr "image") (PyInt 512) ∅ (PyList []) ∅)) /\
    build_kwargs !! "container_limits"
    = Some (PyDict {[ "memory" := PyInt 512; "memswap" := PyInt 512 ]}).
Proof.
  destruct (PlainBuildPack.archive (PlainBuildPack.new bare_super bare_repo)
              (sample_files 0 0 "root") "/opt/plain" ∅) as [tarf|e] eqn:Ha;
    [|vm_compute in Ha; discriminate Ha].
  destruct (memory_limit_sets_memswap
              (PlainBuildPack.new bare_super bare_repo)
              (sample_files 0 0 "root") "/opt/plain" sample_client
              (PyStr "image") 512 ∅ (PyList []) ∅ tarf)
    as (kw & Hrun & Hkw); [lia | reflexivity | exact Ha |].
  exists kw. split; [|exact Hkw]. rewrite Hrun. right. now left.
Defined.

(** C8 (as stated) fails: extra options that hold [container_limits]
    replace the limits derived from the memory limit. *)
Lemma memory_limit_override_counterexample :
  exists build_kwargs,
    In (ClientBuild build_kwargs)
       (fst (PlainBuildPack.build (PlainBuildPack.new bare_super bare_repo)
               (sample_files 0 0 "root") "/opt/plain" sample_client
               (PyStr "image") (PyInt 512) ∅ (PyList [])
               {[ "container_limits" := PyDict ∅ ]})) /\
    build_kwargs !! "container_limits" = Some (PyDict ∅) /\
    PyDict ∅ <> PyDict {[ "memory" := PyInt 512; "memswap" := PyInt 512 ]}.
Proof.
  eexists. split; [right; left; reflexivity|]. split; [reflexivity|].
  intros H.
  apply (f_equal (fun v => match v with
                           | PyDict d => d !! "memory"
                           | _ => None
                           end)) in H.
  vm_compute in H. discriminate H.
Qed.

(** ** The archive *)

Lemma Node_nested_ind (P : Node -> Prop) :
  (forall st data, P (File st data)) ->
  (forall st entries, Forall (fun e => P (snd e)) entries -> P (Dir st entries)) ->
  forall n, P n.
Proof.
  intros HF HD. fix IH 1. intros [st data|st entries]; [apply HF|].
  apply HD. induction entries as [|e entries IHe]; constructor;
    [apply IH | exact IHe].
Qed.

Lemma add_node_Dir filter st entries arcname :
  add_node filter (Dir st entries) arcname
  = (tarinfo <- filter (gettarinfo (Dir st entries) arcname) ;;
     rest <- sequence
       (map snd
          (sorted_by fst
             (map (fun e => (fst e, add_node filter (snd e) (path_join arcname (fst e))))
                  entries))) ;;
     Ok ((tarinfo, []) :: concat rest)).
Proof. reflexivity. Qed.

Lemma filter_tar_File build_args norm st data arcname :
  keeps_mode_mtime norm ->
  PlainBuildPack._filter_tar build_args (gettarinfo (File (norm st) data) arcname)
  = PlainBuildPack._filter_tar build_args (gettarinfo (File st data) arcname).
Proof.
  intros Hn. unfold PlainBuildPack._filter_tar, gettarinfo. simpl.
  destruct (Hn st) as [-> ->]. reflexivity.
Qed.

Lemma filter_tar_Dir build_args norm st entries entries' arcname :
  keeps_mode_mtime norm ->
  PlainBuildPack._filter_tar build_args (gettarinfo (Dir (norm st) entries') arcname)
  = PlainBuildPack._filter_tar build_args (gettarinfo (Dir st entries) arcname).
Proof.
  intros Hn. unfold PlainBuildPack._filter_tar, gettarinfo. simpl.
  destruct (Hn st) as [-> ->]. reflexivity.
Qed.

Lemma add_node_canon build_args norm :
  keeps_mode_mtime norm ->
  forall n arcname,
    add_node (PlainBuildPack._filter_tar build_args) (canon_with norm n) arcname
    = add_node (PlainBuildPack._filter_tar build_args) n arcname.
Proof.
  intros Hn. induction n as [st data|st entries IH] using Node_nested_ind;
    intros arcname.
  - simpl. now rewrite filter_tar_File.
  - simpl canon_with. rewrite !add_node_Dir.
    rewrite (filter_tar_Dir build_args norm st entries) by assumption.
    f_equal.
    rewrite (sorted_by_map fst fst
               (fun e => (fst e, add_node (PlainBuildPack._filter_tar build_args)
                                     (snd e) (path_join arcname (fst e)))))
      by reflexivity.
    rewrite sorted_by_idemp.
    rewrite <- (sorted_by_map fst fst) by reflexivity.
    rewrite map_map. simpl.
    replace (map (fun x => (fst x, add_node (PlainBuildPack._filter_tar build_args)
                               (canon_with norm (snd x)) (path_join arcname (fst x))))
                 entries)
      with (map (fun e => (fst e, add_node (PlainBuildPack._filter_tar build_args)
                               (snd e) (path_join arcname (fst e)))) entries);
      [reflexivity|].
    apply map_ext_Forall. eapply Forall_impl; [exact IH|].
    intros e He. simpl. now rewrite He.
Qed.

Lemma tar_add_same build_args fs1 fs2 name arcname :
  same_files anonymous fs1 fs2 ->
  tar_add fs1 (PlainBuildPack._filter_tar build_args) name arcname
  = tar_add fs2 (PlainBuildPack._filter_tar build_args) name arcname.
Proof.
  intros Hsame. specialize (Hsame name). unfold tar_add.
  assert (Hk : keeps_mode_mtime anonymous) by (intros st; split; reflexivity).
  destruct (fs1 name) as [n1|], (fs2 name) as [n2|]; try discriminate;
    [|reflexivity].
  injection Hsame as Hsame.
  rewrite <- (add_node_canon build_args anonymous Hk n1).
  rewrite <- (add_node_canon build_args anonymous Hk n2).
  now rewrite Hsame.
Qed.

(** The order in which a host lists a directory does not show in the
    canonical tree, as long as no two entries share a name. *)
Lemma canon_with_Permutation norm st entries entries' :
  NoDup (map fst entries) -> entries ≡ₚ entries' ->
  canon_with norm (Dir st entries) = canon_with norm (Dir st entries').
Proof.
  intros Hnd Hperm. simpl. f_equal. apply sorted_by_unique.
  - now rewrite map_map.
  - now apply Permutation_map.
Qed.

(** C1 (as the code has it). The archive is a function of the build pack,
    of the build arguments and of the files with their modes and time
    stamps: two hosts whose files differ only in the owner they report
    (numeric or by name) and in the order in which directories are listed
    give the same archive. Time stamps are copied into the archive. *)
Theorem archive_ignores_owner_and_order (self : BuildPack.t) (fs1 fs2 : Files)
  (module_dir : string) (build_args : gmap string PyVal) :
  same_files anonymous fs1 fs2 ->
  PlainBuildPack.archive self fs1 module_dir build_args
  = PlainBuildPack.archive self fs2 module_dir build_args.
Proof.
  intros Hsame. unfold PlainBuildPack.archive.
  destruct (PlainBuildPack.render self) as [text|e]; [|reflexivity]. simpl.
  rewrite (tar_add_same build_args fs1 fs2 "." "src/" Hsame).
  replace (map (fun src =>
                  tar_add fs1 (PlainBuildPack._filter_tar build_args)
                    (fold_left path_join (split_on "/" src) module_dir) src)
               (sorted (map fst (BuildPack.get_build_script_files self))))
    with (map (fun src =>
                 tar_add fs2 (PlainBuildPack._filter_tar build_args)
                   (fold_left path_join (split_on "/" src) module_dir) src)
              (sorted (map fst (BuildPack.get_build_script_files self))));
    [reflexivity|].
  apply map_ext. intros src. symmetry. now apply tar_add_same.
Qed.

Lemma archive_ignores_owner_and_order_witness :
  PlainBuildPack.archive (PlainBuildPack.new bare_super bare_repo)
    (listed_files 0 5 "root" false) "/opt/plain" ∅
  = PlainBuildPack.archive (PlainBuildPack.new bare_super bare_repo)
      (listed_files 1000 5 "jovyan" true) "/opt/plain" ∅.
Proof.
  apply archive_ignores_owner_and_order.
  intros p. unfold listed_files. destruct (String.eqb p "."); reflexivity.
Defined.

(** C1 (as stated) fails: two hosts with the same files, the same modes
    and the same owners, whose time stamps differ, give different
    archives. *)
Lemma archive_mtime_counterexample :
  same_files timeless (sample_files 0 1 "root") (sample_files 0 2 "root") /\
  PlainBuildPack.archive (PlainBuildPack.new bare_super bare_repo)
    (sample_files 0 1 "root") "/opt/plain" ∅
  <> PlainBuildPack.archive (PlainBuildPack.new bare_super bare_repo)
       (sample_files 0 2 "root") "/opt/plain" ∅.
Proof.
  split.
  - intros p. unfold sample_files. destruct (String.eqb p "."); reflexivity.
  - vm_compute. intros H. discriminate H.
Qed.

(** * Further properties *)


Lemma run_body_from scripts :
  forall last_user,
    omap run_body (script_directives_from last_user scripts)
    = map (fun s => dedent (strip_newlines (snd s))) scripts.
Proof.
  induction scripts as [|[user script] rest IH]; intros last_user;
    [reflexivity|].
  simpl. destruct (negb (String.eqb last_user user)); cbn; now rewrite IH.
Qed.


Lemma lstrip_with_keep drop s :
  all_chars (fun c => negb (drop c)) s = true -> lstrip_with drop s = s.
Proof. destruct s as [|c s]; simpl; [reflexivity|]. now destruct (drop c). Qed.

Lemma rstrip_with_keep drop s :
  all_chars (fun c => negb (drop c)) s = true -> rstrip_with drop s = s.
Proof.
  induction s as [|c s IH]; simpl; [reflexivity|].
  intros H. apply andb_true_iff in H as [Hc H]. rewrite (IH H).
  destruct s; [|reflexivity]. now destruct (drop c).
Qed.

Lemma all_chars_ext p q s :
  (forall c, p c = q c) -> all_chars p s = all_chars q s.
Proof.
  intros H. induction s as [|c s IH]; [reflexivity|].
  change (p c && all_chars p s = q c && all_chars q s). now rewrite H, IH.
Qed.

Lemma strip_newlines_no_LF s : no_LF s = true -> strip_newlines s = s.
Proof.
  intros H. unfold strip_newlines, strip_with.
  assert (H' : all_chars (fun c => negb (Ascii.eqb "010" c)) s = true).
  { transitivity (no_LF s); [|exact H]. unfold no_LF.
    apply all_chars_ext. intros c.
    now rewrite (Ascii.eqb_sym c). }
  rewrite (lstrip_with_keep (Ascii.eqb "010") s H').
  exact (rstrip_with_keep (Ascii.eqb "010") s H').
Qed.

Lemma split_on_one s : no_LF s = true -> split_on "010" s = [s].
Proof.
  intros H. pose proof (split_on_join s [] ) as E. simpl in E. apply E.
  now repeat constructor.
Qed.

Lemma dedent_one_line s :
  no_LF s = true -> unindented s = true -> dedent s = s.
Proof.
  intros Hn Hu. unfold dedent. rewrite (split_on_one s Hn).
  destruct s as [|c r]; [discriminate|]. simpl in Hu. apply negb_true_iff in Hu.
  cbn -[is_blank]. unfold blank_line. cbn -[is_blank]. rewrite Hu. simpl.
  unfold leading_whitespace. cbn -[is_blank]. rewrite Hu. reflexivity.
Qed.

(** X2. A script of one line that does not start with a blank or a tab is
    the body of its [RUN] directive, unchanged. *)
Theorem one_line_scripts_run_verbatim (scripts : list (string * string)) :
  Forall (fun s => no_LF (snd s) = true /\ unindented (snd s) = true) scripts ->
  omap run_body (script_directives scripts) = map snd scripts.
Proof.
  intros H. unfold script_directives. rewrite run_body_from.
  apply map_ext_Forall. eapply Forall_impl; [exact H|].
  intros [user script] [Hn Hu]. simpl in *.
  now rewrite strip_newlines_no_LF, dedent_one_line.
Qed.

Lemma one_line_scripts_run_verbatim_witness :
  omap run_body (script_directives [("root", "echo hi"); ("nb", "make")])
  = ["echo hi"; "make"].
Proof.
  apply (one_line_scripts_run_verbatim [("root", "echo hi"); ("nb", "make")]).
  repeat constructor.
Defined.

Lemma line_ok_step l rest acc :
  read_apt (l :: rest) acc
  = if line_ok l
    then read_apt rest (acc ++ List.filter nonempty [package_of l])
    else Raise (InvalidPackageName (package_of l)).
Proof.
  unfold line_ok. destruct (package_of l) as [|c s] eqn:Hp.
  - rewrite (read_apt_skip l rest acc Hp). simpl. now rewrite app_nil_r.
  - destruct (pkg_char c) eqn:Hc.
    + now rewrite (read_apt_accept l rest acc c s Hp Hc).
    + now rewrite (read_apt_reject l rest acc c s Hp Hc).
Qed.

Lemma read_apt_accepts lines :
  forall acc,
    forallb line_ok lines = true ->
    read_apt lines acc = Ok (acc ++ kept_names lines).
Proof.
  induction lines as [|l lines IH]; intros acc H.
  - simpl. now rewrite app_nil_r.
  - simpl in H. apply andb_true_iff in H as [Hl H].
    rewrite line_ok_step, Hl, (IH _ H). unfold kept_names. simpl.
    destruct (nonempty (package_of l)); simpl;
      [now rewrite <- app_assoc | now rewrite app_nil_r].
Qed.

Lemma read_apt_rejects lines :
  forall acc,
    forallb line_ok lines = false ->
    exists before l after,
      lines = before ++ l :: after /\
      forallb line_ok before = true /\
      line_ok l = false /\
      read_apt lines acc = Raise (InvalidPackageName (package_of l)).
Proof.
  induction lines as [|l lines IH]; intros acc H; [discriminate|].
  simpl in H. destruct (line_ok l) eqn:Hl; simpl in H.
  - destruct (IH (acc ++ List.filter nonempty [package_of l]) H)
      as (before & l' & after & -> & Hb & Hl' & Hr).
    exists (l :: before), l', after.
    split; [reflexivity|]. split; [simpl; now rewrite Hl, Hb|].
    split; [assumption|].
    change ((l :: before) ++ l' :: after) with (l :: (before ++ l' :: after)).
    now rewrite line_ok_step, Hl.
  - exists [], l, lines. repeat split; try assumption.
    now rewrite line_ok_step, Hl.
Qed.

(** X3. The reader of [apt.txt] returns a list exactly when every line is
    skipped or starts, once cleaned, with a character of [[a-z0-9.+-]];
    the list is then the cleaned non-empty lines in file order. *)
Theorem read_apt_accepts_iff (lines pkgs : list string) :
  read_apt lines [] = Ok pkgs
  <-> forallb line_ok lines = true /\ pkgs = kept_names lines.
Proof.
  split.
  - intros H. destruct (forallb line_ok lines) eqn:Hok.
    + split; [reflexivity|]. rewrite (read_apt_accepts lines [] Hok) in H.
      now injection H as <-.
    + destruct (read_apt_rejects lines [] Hok) as (? & ? & ? & _ & _ & _ & Hr).
      congruence.
  - intros [Hok ->]. now rewrite (read_apt_accepts lines [] Hok).
Qed.

Lemma read_apt_accepts_iff_witness :
  read_apt ["git"; "# tools"; "vim"] [] = Ok ["git"; "vim"].
Proof.
  apply (read_apt_accepts_iff ["git"; "# tools"; "vim"] ["git"; "vim"]).
  split; reflexivity.
Defined.

(** X4. When [apt.txt] is absent, [render] of a plain build pack returns
    a document. When [apt.txt] is read to its end, [render] returns a
    document exactly when every line passes the check, and otherwise
    raises the [ValueError] that names the first failing line, cleaned. *)
Theorem render_fails_at_first_bad_line (super : BuildPack.t) (repo : Repo) :
  (read_lines repo (BuildPack.binder_path super "apt.txt") = None ->
   is_Ok (PlainBuildPack.render (PlainBuildPack.new super repo)) = true) /\
  (forall lines,
      read_lines repo (BuildPack.binder_path super "apt.txt") = Some lines ->
      is_Ok (PlainBuildPack.render (PlainBuildPack.new super repo))
      = forallb line_ok lines /\
      forall e,
        PlainBuildPack.render (PlainBuildPack.new super repo) = Raise e ->
        exists before l after,
          lines = before ++ l :: after /\
          forallb line_ok before = true /\
          line_ok l = false /\
          e = ValueError ("Found invalid package name " +:+ package_of l
                          +:+ " in apt.txt")).
Proof.
  unfold PlainBuildPack.render, PlainBuildPack.render_items. simpl. split.
  - now intros ->.
  - intros lines ->. unfold PlainBuildPack.get_preassemble_scripts.
    destruct (forallb line_ok lines) eqn:Hok.
    + rewrite (read_apt_accepts lines [] Hok). simpl. split; [reflexivity|].
      discriminate.
    + destruct (read_apt_rejects lines [] Hok)
        as (before & l & after & -> & Hb & Hl & Hr).
      rewrite Hr. simpl. split; [reflexivity|].
      intros e [= <-]. now exists before, l, after.
Qed.

Lemma render_fails_at_first_bad_line_witness :
  exists before l after,
    ["git"; "  _curl"; "Vim"] = before ++ l :: after /\
    forallb line_ok before = true /\
    line_ok l = false /\
    ValueError "Found invalid package name _curl in apt.txt"
    = ValueError ("Found invalid package name " +:+ package_of l
                  +:+ " in apt.txt").
Proof.
  destruct (render_fails_at_first_bad_line bare_super
              (apt_repo ["git"; "  _curl"; "Vim"])) as [_ H].
  destruct (H ["git"; "  _curl"; "Vim"] eq_refl) as [_ Hraise].
  apply Hraise. reflexivity.
Defined.

Lemma all_chars_lstrip q drop s :
  all_chars q s = true -> all_chars q (lstrip_with drop s) = true.
Proof.
  induction s as [|c s IH]; simpl; [reflexivity|].
  intros H. destruct (drop c); [|exact H].
  apply andb_true_iff in H as [_ H]. auto.
Qed.

Lemma all_chars_rstrip q drop s :
  all_chars q s = true -> all_chars q (rstrip_with drop s) = true.
Proof.
  induction s as [|c s IH]; simpl; [reflexivity|].
  intros H. apply andb_true_iff in H as [Hc H]. specialize (IH H).
  destruct (rstrip_with drop s); simpl in *.
  - destruct (drop c); simpl; [reflexivity|]. now rewrite Hc.
  - now rewrite Hc.
Qed.

Lemma partition0_not_hash s : all_chars not_hash (partition0 "#" s) = true.
Proof.
  induction s as [|a s IH]; simpl; [reflexivity|].
  destruct (Ascii.eqb a "#") eqn:Ha; simpl; [reflexivity|].
  unfold not_hash at 1. now rewrite Ha, IH.
Qed.

Lemma rstrip_with_cons drop c s :
  rstrip_with drop (String c s)
  = match rstrip_with drop s with
    | EmptyString => if drop c then EmptyString else String c EmptyString
    | r => String c r
    end.
Proof. reflexivity. Qed.

Lemma rstrip_with_idem drop s :
  rstrip_with drop (rstrip_with drop s) = rstrip_with drop s.
Proof.
  induction s as [|c s IH]; [reflexivity|].
  rewrite rstrip_with_cons.
  destruct (rstrip_with drop s) as [|c' r] eqn:E.
  - destruct (drop c) eqn:Hc; [reflexivity|].
    rewrite rstrip_with_cons. simpl. now rewrite Hc.
  - now rewrite rstrip_with_cons, IH.
Qed.

Lemma lstrip_with_head drop s c r :
  lstrip_with drop s = String c r -> drop c = false.
Proof.
  induction s as [|a s IH]; simpl; [discriminate|].
  destruct (drop a) eqn:Ha; [exact IH|]. now intros [= <- <-].
Qed.

Lemma strip_with_idem drop s :
  strip_with drop (strip_with drop s) = strip_with drop s.
Proof.
  unfold strip_with. destruct (lstrip_with drop s) as [|c r] eqn:E;
    [reflexivity|].
  pose proof (lstrip_with_head drop s c r E) as Hc.
  assert (H : exists r', rstrip_with drop (String c r) = String c r').
  { simpl. destruct (rstrip_with drop r); [rewrite Hc|]; eauto. }
  destruct H as [r' Hr]. rewrite Hr.
  replace (lstrip_with drop (String c r')) with (String c r')
    by (simpl; now rewrite Hc).
  rewrite <- Hr. apply rstrip_with_idem.
Qed.

(** X5. What the reader keeps of a line holds no [#], has no white space
    at either end, and is the same whether or not the line ends with a
    newline. *)
Theorem package_of_is_clean (l : string) :
  all_chars not_hash (package_of l) = true /\
  strip (package_of l) = package_of l /\
  package_of (l +:+ LF) = package_of l.
Proof.
  split; [|split].
  - apply all_chars_rstrip, all_chars_lstrip, partition0_not_hash.
  - apply strip_with_idem.
  - apply package_of_LF.
Qed.



(** X6. [get_packages] of the plain build pack is the empty set whatever
    the base class holds, so its Dockerfile has no explicit install
    instruction. *)
Theorem plain_pack_never_installs_packages (super : BuildPack.t) (repo : Repo)
  (doc : list Item) :
  PlainBuildPack.render_items (PlainBuildPack.new super repo) = Ok doc ->
  omap install_of (instructions doc) = [].
Proof.
  unfold PlainBuildPack.render_items.
  destruct (BuildPack.get_preassemble_scripts (PlainBuildPack.new super repo));
    [|discriminate].
  simpl. intros [= <-]. now rewrite TEMPLATE_build_plan, build_plan_install.
Qed.

Lemma plain_pack_never_installs_packages_witness :
  BuildPack.get_packages busy_super <> ∅ /\
  omap install_of
    (instructions
       (TEMPLATE (PlainBuildPack.context
                    (PlainBuildPack.new busy_super bare_repo) [])))
  = [].
Proof.
  split; [vm_compute; discriminate|].
  apply (plain_pack_never_installs_packages busy_super bare_repo).
  reflexivity.
Defined.

Lemma insert_by_filter {A : Type} (key : A -> string) (k : string) x l :
  List.filter (fun y => String.eqb (key y) k) (insert_by key x l)
  = List.filter (fun y => String.eqb (key y) k) (x :: l).
Proof.
  induction l as [|y l IH]; [reflexivity|].
  simpl insert_by. destruct (String.leb (key x) (key y)) eqn:Hxy; [reflexivity|].
  simpl. simpl in IH. rewrite IH.
  destruct (String.eqb_spec (key x) k) as [Hx|Hx]; [|reflexivity].
  destruct (String.eqb_spec (key y) k) as [Hy|Hy]; [|reflexivity].
  rewrite Hx, <- Hy, leb_refl in Hxy. discriminate.
Qed.

Lemma sorted_by_stable {A : Type} (key : A -> string) (k : string) l :
  List.filter (fun y => String.eqb (key y) k) (sorted_by key l)
  = List.filter (fun y => String.eqb (key y) k) l.
Proof.
  induction l as [|x l IH]; [reflexivity|].
  simpl sorted_by. rewrite insert_by_filter. simpl. now rewrite IH.
Qed.

Lemma build_plan_label c :
  omap label_of (build_plan c) = dictsort (labels c).
Proof.
  unfold build_plan. rewrite !omap_app.
  rewrite (omap_map_some label_of (fun kv => LABEL (fst kv) (snd kv)))
    by (now intros []).
  rewrite !omap_map_none, !omap_if_none by reflexivity.
  destruct (start_script c); cbn; apply app_nil_r.
Qed.

(** X7. The [LABEL] instructions are the labels ordered by key with the
    case ignored, each label once; labels whose keys differ in case only
    keep the order of the dict. *)
Theorem labels_are_rendered_sorted (self : BuildPack.t) (doc : list Item) :
  PlainBuildPack.render_items self = Ok doc ->
  omap label_of (instructions doc) = dictsort (BuildPack.get_labels self) /\
  Sorted (key_le lower_key) (dictsort (BuildPack.get_labels self)) /\
  dictsort (BuildPack.get_labels self) ≡ₚ BuildPack.get_labels self /\
  forall k,
    List.filter (fun kv => String.eqb (lower_key kv) k)
                (dictsort (BuildPack.get_labels self))
    = List.filter (fun kv => String.eqb (lower_key kv) k)
                  (BuildPack.get_labels self).
Proof.
  unfold PlainBuildPack.render_items.
  destruct (BuildPack.get_preassemble_scripts self); [|discriminate].
  simpl. intros [= <-]. rewrite TEMPLATE_build_plan, build_plan_label.
  split; [reflexivity|]. split; [apply (sorted_by_Sorted lower_key)|].
  split; [apply (sorted_by_Permutation lower_key)|].
  intros k. apply (sorted_by_stable lower_key).
Qed.

Lemma labels_are_rendered_sorted_witness :
  omap label_of
    (instructions
       (TEMPLATE (PlainBuildPack.context
                    (PlainBuildPack.new busy_super bare_repo) [])))
  = [("A", "2"); ("b", "1")].
Proof.
  exact (proj1 (labels_are_rendered_sorted
                  (PlainBuildPack.new busy_super bare_repo) _ eq_refl)).
Defined.

Lemma build_plan_post_build c :
  omap post_build_of (build_plan c) = post_build_scripts c.
Proof.
  unfold build_plan. rewrite !omap_app.
  rewrite (omap_map_some post_build_of POST_BUILD) by reflexivity.
  rewrite !omap_map_none, !omap_if_none by reflexivity.
  destruct (start_script c); cbn; apply app_nil_r.
Qed.

Lemma build_plan_start c :
  omap start_of (build_plan c)
  = match start_script c with Some s => [s] | None => [] end.
Proof.
  unfold build_plan. rewrite !omap_app.
  rewrite !omap_map_none, !omap_if_none by reflexivity.
  destruct (start_script c); cbn; reflexivity.
Qed.

(** X8. The Dockerfile runs [postBuild] exactly when that file exists, and
    registers the start script exactly when [start] exists, under
    [${REPO_DIR}/] unless the binder path is absolute, which
    [os.path.join] then returns alone. *)
Theorem hooks_follow_the_files (super : BuildPack.t) (repo : Repo)
  (doc : list Item) :
  PlainBuildPack.render_items (PlainBuildPack.new super repo) = Ok doc ->
  omap post_build_of (instructions doc)
  = (if path_exists repo (BuildPack.binder_path super "postBuild")
     then [BuildPack.binder_path super "postBuild"] else []) /\
  omap start_of (instructions doc)
  = (if path_exists repo (BuildPack.binder_path super "start")
     then [if String.prefix "/" (BuildPack.binder_path super "start")
           then BuildPack.binder_path super "start"
           else "${REPO_DIR}/" +:+ BuildPack.binder_path super "start"]
     else []).
Proof.
  unfold PlainBuildPack.render_items.
  destruct (BuildPack.get_preassemble_scripts (PlainBuildPack.new super repo));
    [|discriminate].
  simpl bind. intros [= <-].
  rewrite TEMPLATE_build_plan, build_plan_post_build, build_plan_start.
  simpl. unfold PlainBuildPack.get_post_build_scripts, PlainBuildPack.get_start_script.
  split; [reflexivity|].
  destruct (path_exists repo (BuildPack.binder_path super "start"));
    [|reflexivity].
  unfold path_join. simpl. now destruct (String.prefix "/" _).
Qed.

Lemma hooks_follow_the_files_witness :
  omap start_of
    (instructions
       (TEMPLATE (PlainBuildPack.context
                    (PlainBuildPack.new bare_super hook_repo) [])))
  = ["${REPO_DIR}/start"].
Proof.
  exact (proj2 (hooks_follow_the_files bare_super hook_repo _ eq_refl)).
Defined.

Lemma cat_cons x l : cat (x :: l) = x +:+ cat l.
Proof.
  unfold cat. destruct l as [|y l]; simpl.
  - clear. induction x as [|c x IH]; [reflexivity|].
    change (String c x +:+ EmptyString) with (String c (x +:+ EmptyString)).
    now rewrite <- IH.
  - reflexivity.
Qed.

Lemma prefix_append p s : String.prefix p (p +:+ s) = true.
Proof.
  induction p as [|c p IH]; [now destruct s|].
  change (String c p +:+ s) with (String c (p +:+ s)). simpl.
  destruct (ascii_dec c c); [exact IH|contradiction].
Qed.

(** X9. Every Dockerfile starts with the [FROM] line of the fixed base
    image, and its instructions end with [ENTRYPOINT] and [CMD] for
    ["my_entrypoint"] and ["my_command"]. *)
Theorem dockerfile_frame (self : BuildPack.t) (doc : list Item) :
  PlainBuildPack.render_items self = Ok doc ->
  (exists middle,
      instructions doc
      = FROM_IMAGE :: middle ++ [ENTRYPOINT "my_entrypoint"; CMD "my_command"]) /\
  String.prefix FROM_line (document_text doc) = true.
Proof.
  unfold PlainBuildPack.render_items.
  destruct (BuildPack.get_preassemble_scripts self) as [scripts|]; [|discriminate].
  simpl bind. intros [= <-]. split.
  - rewrite TEMPLATE_build_plan. unfold build_plan.
    cbn [cmd entrypoint PlainBuildPack.context nonempty app].
    eexists. f_equal.
    change [ENTRYPOINT "my_entrypoint"; CMD "my_command"]
      with ([ENTRYPOINT "my_entrypoint"] ++ [CMD "my_command"]).
    rewrite !app_assoc. reflexivity.
  - unfold TEMPLATE, document_text.
    cbn [app map item_text instr_text]. rewrite !cat_cons.
    unfold FROM_line. rewrite <- !append_assoc. apply prefix_append.
Qed.

Lemma dockerfile_frame_witness :
  String.prefix FROM_line
    (document_text
       (TEMPLATE (PlainBuildPack.context
                    (PlainBuildPack.new busy_super hook_repo) [])))
  = true.
Proof.
  exact (proj2 (dockerfile_frame
                  (PlainBuildPack.new busy_super hook_repo) _ eq_refl)).
Defined.



Lemma sequence_Forall {A : Type} (Q : A -> Prop) (l : list (Res A)) :
  (forall m r, In m l -> m = Ok r -> Q r) ->
  forall rs, sequence l = Ok rs -> Forall Q rs.
Proof.
  induction l as [|m l IH]; intros H rs; simpl.
  - intros [= <-]. constructor.
  - destruct m as [a|e]; [|discriminate]. simpl.
    destruct (sequence l) as [r|e]; [|discriminate]. simpl.
    intros [= <-]. constructor; [apply (H (Ok a)); [now left|reflexivity]|].
    apply IH; [|reflexivity]. intros m r' Hin. apply H. now right.
Qed.

Lemma sequence_Raise {A : Type} (l : list (Res A)) e :
  In (Raise e) l -> exists e', sequence l = Raise e'.
Proof.
  induction l as [|m l IH]; [intros []|]. intros [->|Hin]; simpl; [eauto|].
  destruct m as [a|e0]; [|eauto]. simpl.
  destruct (IH Hin) as [e' ->]. eauto.
Qed.

Lemma filter_tar_Ok build_args tar tar' :
  PlainBuildPack._filter_tar build_args tar = Ok tar' ->
  exists u,
    NB_UID build_args = Ok u /\
    TarInfo.uid tar' = u /\ TarInfo.gid tar' = u /\
    TarInfo.uname tar' = EmptyString /\ TarInfo.gname tar' = EmptyString /\
    TarInfo.size tar' = TarInfo.size tar.
Proof.
  unfold PlainBuildPack._filter_tar, NB_UID.
  destruct (py_int (dict_get build_args "NB_UID" (PyInt 1000))) as [u|e];
    [|discriminate].
  simpl. intros [= <-]. exists u. now repeat split.
Qed.

Lemma Forall_concat {A : Type} (P : A -> Prop) (ls : list (list A)) :
  Forall (Forall P) ls -> Forall P (concat ls).
Proof.
  induction 1 as [|l ls Hl _ IH]; simpl; [constructor|].
  apply Forall_app. now split.
Qed.

Lemma add_node_members build_args n :
  forall arcname ms,
    add_node (PlainBuildPack._filter_tar build_args) n arcname = Ok ms ->
    exists u,
      NB_UID build_args = Ok u /\
      Forall (fun m => owned_by u m /\ sized m) ms.
Proof.
  induction n as [st data|st entries IH] using Node_nested_ind;
    intros arcname ms.
  - simpl.
    destruct (PlainBuildPack._filter_tar build_args
                (gettarinfo (File st data) arcname)) as [tar'|e] eqn:Hf;
      [|discriminate].
    simpl. intros [= <-].
    destruct (filter_tar_Ok _ _ _ Hf) as (u & Hu & H1 & H2 & H3 & H4 & Hs).
    exists u. split; [exact Hu|].
    constructor; [|constructor]. split; [now repeat split|exact Hs].
  - rewrite add_node_Dir.
    destruct (PlainBuildPack._filter_tar build_args
                (gettarinfo (Dir st entries) arcname)) as [tar'|e] eqn:Hf;
      [|discriminate].
    simpl bind.
    destruct (sequence _) as [rest|e] eqn:Hseq; [|discriminate].
    simpl. intros [= <-].
    destruct (filter_tar_Ok _ _ _ Hf) as (u & Hu & H1 & H2 & H3 & H4 & Hs).
    exists u. split; [exact Hu|]. constructor.
    { split; [now repeat split|exact Hs]. }
    apply Forall_concat.
    refine (sequence_Forall _ _ _ rest Hseq).
    intros m r Hin Hm.
    apply list_elem_of_In in Hin.
    rewrite (sorted_by_Permutation fst), map_map in Hin.
    apply list_elem_of_In, in_map_iff in Hin as (entry & <- & Hentry).
    rewrite Forall_forall in IH. apply list_elem_of_In in Hentry.
    destruct (IH entry Hentry _ _ Hm) as (u' & Hu' & Hall).
    simpl in Hm. rewrite Hu in Hu'. now injection Hu' as <-.
Qed.



Lemma tar_add_members build_args fs name arcname ms :
  tar_add fs (PlainBuildPack._filter_tar build_args) name arcname = Ok ms ->
  exists u,
    NB_UID build_args = Ok u /\
    Forall (fun m => owned_by u m /\ sized m) ms.
Proof.
  unfold tar_add. destruct (fs name) as [n|]; [|discriminate].
  apply add_node_members.
Qed.

Lemma archive_shape self fs module_dir build_args members :
  PlainBuildPack.archive self fs module_dir build_args = Ok members ->
  exists text rest u,
    PlainBuildPack.render self = Ok text /\
    members
    = (PlainBuildPack.dockerfile_tarinfo (encode_utf8 text), encode_utf8 text)
      :: rest /\
    NB_UID build_args = Ok u /\
    Forall (fun m => owned_by u m /\ sized m) rest.
Proof.
  unfold PlainBuildPack.archive.
  destruct (PlainBuildPack.render self) as [text|]; [|discriminate].
  simpl bind. destruct (sequence _) as [files|] eqn:Hfiles; [|discriminate].
  simpl bind.
  destruct (tar_add fs _ "." "src/") as [tree|] eqn:Htree; [|discriminate].
  simpl. intros [= <-].
  destruct (tar_add_members _ _ _ _ _ Htree) as (u & Hu & Htree').
  exists text, (concat files ++ tree), u.
  split; [reflexivity|]. split; [reflexivity|]. split; [exact Hu|].
  apply Forall_app. split; [|exact Htree'].
  apply Forall_concat. refine (sequence_Forall _ _ _ files Hfiles).
  intros m r Hin Hm. apply in_map_iff in Hin as (src & <- & _).
  destruct (tar_add_members _ _ _ _ _ Hm) as (u' & Hu' & Hall).
  rewrite Hu in Hu'. now injection Hu' as <-.
Qed.

(** X10. In an archive that [build] completes, the first member is the
    Dockerfile, owned by 0:0 with time stamp 0; every other member has
    both its owner and its group set to [int(NB_UID)] (1000 when the build
    arguments have none) and empty owner and group names. *)
Theorem archive_members_are_owned_by_NB_UID (self : BuildPack.t) (fs : Files)
  (module_dir : string) (build_args : gmap string PyVal)
  (members : list Member) :
  PlainBuildPack.archive self fs module_dir build_args = Ok members ->
  exists dockerfile rest u,
    members = dockerfile :: rest /\
    TarInfo.name (fst dockerfile) = "Dockerfile" /\
    TarInfo.uid (fst dockerfile) = 0%Z /\
    TarInfo.gid (fst dockerfile) = 0%Z /\
    TarInfo.mtime (fst dockerfile) = 0%Z /\
    NB_UID build_args = Ok u /\
    Forall (owned_by u) rest.
Proof.
  intros H. destruct (archive_shape _ _ _ _ _ H) as (text & rest & u & _ & -> & Hu & Hrest).
  eexists _, rest, u. split; [reflexivity|]. repeat split; try reflexivity; try assumption.
  eapply Forall_impl; [exact Hrest|]. now intros m [Hm _].
Qed.

Lemma archive_members_are_owned_by_NB_UID_witness :
  exists members dockerfile rest,
    PlainBuildPack.archive (PlainBuildPack.new bare_super bare_repo)
      (listed_files 0 5 "root" false) "/opt/plain" {[ "NB_UID" := PyStr "1001" ]}
    = Ok members /\
    members = dockerfile :: rest /\
    Forall (owned_by 1001) rest.
Proof.
  destruct (PlainBuildPack.archive (PlainBuildPack.new bare_super bare_repo)
              (listed_files 0 5 "root" false) "/opt/plain"
              {[ "NB_UID" := PyStr "1001" ]}) as [members|e] eqn:Ha;
    [|vm_compute in Ha; discriminate Ha].
  destruct (archive_members_are_owned_by_NB_UID _ _ _ _ _ Ha)
    as (dockerfile & rest & u & Hm & _ & _ & _ & _ & Hu & Hrest).
  exists members, dockerfile, rest. split; [reflexivity|]. split; [exact Hm|].
  vm_compute in Hu. injection Hu as <-. exact Hrest.
Defined.

(** X11. In an archive that [build] completes, the size in each header is
    the number of bytes of the member, and the first member holds the
    UTF-8 bytes of the rendered Dockerfile. *)
Theorem archive_sizes_match_the_data (self : BuildPack.t) (fs : Files)
  (module_dir : string) (build_args : gmap string PyVal)
  (members : list Member) :
  PlainBuildPack.archive self fs module_dir build_args = Ok members ->
  Forall sized members /\
  exists text rest,
    PlainBuildPack.render self = Ok text /\
    members
    = (PlainBuildPack.dockerfile_tarinfo (encode_utf8 text), encode_utf8 text)
      :: rest.
Proof.
  intros H. destruct (archive_shape _ _ _ _ _ H) as (text & rest & u & Hr & -> & Hu & Hrest).
  split; [|now exists text, rest].
  constructor; [reflexivity|].
  eapply Forall_impl; [exact Hrest|]. now intros m [_ Hm].
Qed.

Lemma archive_sizes_match_the_data_witness :
  exists members,
    PlainBuildPack.archive (PlainBuildPack.new bare_super bare_repo)
      (listed_files 0 5 "root" false) "/opt/plain" ∅
    = Ok members /\
    Forall sized members.
Proof.
  destruct (PlainBuildPack.archive (PlainBuildPack.new bare_super bare_repo)
              (listed_files 0 5 "root" false) "/opt/plain" ∅)
    as [members|e] eqn:Ha; [|vm_compute in Ha; discriminate Ha].
  exists members. split; [reflexivity|].
  exact (proj1 (archive_sizes_match_the_data _ _ _ _ _ Ha)).
Defined.



(** X13. When a file named by [get_build_script_files] is missing next to
    the module, no archive is completed: [build] raises without calling
    the engine. *)
Theorem missing_staged_file_stops_the_build (self : BuildPack.t) (fs : Files)
  (module_dir : string) (client : Client) (image_spec memory_limit : PyVal)
  (build_args : gmap string PyVal) (cache_from : PyVal)
  (extra_build_kwargs : gmap string PyVal) (src dst : string) :
  In (src, dst) (BuildPack.get_build_script_files self) ->
  fs (fold_left path_join (split_on "/" src) module_dir) = None ->
  exists e,
    PlainBuildPack.archive self fs module_dir build_args = Raise e /\
    PlainBuildPack.build self fs module_dir client image_spec memory_limit
      build_args cache_from extra_build_kwargs
    = ([], ([], Some e)).
Proof.
  intros Hin Hfs.
  assert (Ha : exists e, PlainBuildPack.archive self fs module_dir build_args
                         = Raise e).
  { unfold PlainBuildPack.archive.
    destruct (PlainBuildPack.render self) as [text|e]; [|eauto]. simpl bind.
    destruct (sequence_Raise
                (map (fun src =>
                        tar_add fs (PlainBuildPack._filter_tar build_args)
                          (fold_left path_join (split_on "/" src) module_dir) src)
                     (sorted (map fst (BuildPack.get_build_script_files self))))
                (FileNotFoundError
                   (fold_left path_join (split_on "/" src) module_dir)))
      as [e' ->]; [|simpl; eauto].
    apply in_map_iff. exists src. split.
    - unfold tar_add. now rewrite Hfs.
    - apply list_elem_of_In. unfold sorted.
      rewrite (sorted_by_Permutation id). apply list_elem_of_In.
      apply in_map_iff. now exists (src, dst). }
  destruct Ha as [e Ha]. exists e. split; [exact Ha|].
  unfold PlainBuildPack.build. now rewrite Ha.
Qed.

Lemma missing_staged_file_stops_the_build_witness :
  exists e,
    PlainBuildPack.archive (PlainBuildPack.new busy_super bare_repo)
      (sample_files 0 0 "root") "/opt/plain" ∅
    = Raise e /\
    PlainBuildPack.build (PlainBuildPack.new busy_super bare_repo)
      (sample_files 0 0 "root") "/opt/plain" sample_client (PyStr "image")
      (PyInt 512) ∅ (PyList []) ∅
    = ([], ([], Some e)).
Proof.
  apply (missing_staged_file_stops_the_build
           (PlainBuildPack.new busy_super bare_repo) (sample_files 0 0 "root")
           "/opt/plain" sample_client (PyStr "image") (PyInt 512) ∅ (PyList [])
           ∅ "install.sh" "/tmp/install.sh").
  - left. reflexivity.
  - reflexivity.
Defined.

Lemma build_completes self fs module_dir client image_spec memory_limit
  build_args cache_from extra_build_kwargs tarf :
  PlainBuildPack.archive self fs module_dir build_args = Ok tarf ->
  isinstance_int memory_limit = true ->
  exists build_kwargs,
    PlainBuildPack.build self fs module_dir client image_spec memory_limit
      build_args cache_from extra_build_kwargs
    = ([TarClose tarf; ClientBuild build_kwargs], client build_kwargs).
Proof.
  intros Ha Hint. unfold PlainBuildPack.build. rewrite Ha, Hint. simpl. eauto.
Qed.


Lemma lookup_update (extra base : gmap string PyVal) k :
  (extra ∪ base) !! k = match extra !! k with
                        | Some v => Some v
                        | None => base !! k
                        end.
Proof.
  rewrite lookup_union. destruct (extra !! k), (base !! k); reflexivity.
Qed.

(** X15. The engine receives every extra option as given; each of the
    nine arguments [build] sets keeps its value unless an extra option of
    that name replaces it. The limits set are [{memory, memswap}] of the
    memory limit when it is true, and the empty dict when it is 0 or
    [False]. *)
Theorem engine_arguments (self : BuildPack.t) (fs : Files)
  (module_dir : string) (client : Client) (image_spec memory_limit : PyVal)
  (build_args : gmap string PyVal) (cache_from : PyVal)
  (extra_build_kwargs : gmap string PyVal) (build_kwargs : gmap string PyVal) :
  In (ClientBuild build_kwargs)
     (fst (PlainBuildPack.build self fs module_dir client image_spec
             memory_limit build_args cache_from extra_build_kwargs)) ->
  (forall k v, extra_build_kwargs !! k = Some v -> build_kwargs !! k = Some v) /\
  (exists tarf,
      PlainBuildPack.archive self fs module_dir build_args = Ok tarf /\
      build_kwargs !! "fileobj"
      = Some (default (PyBytesIO tarf) (extra_build_kwargs !! "fileobj"))) /\
  build_kwargs !! "tag"
  = Some (default image_spec (extra_build_kwargs !! "tag")) /\
  build_kwargs !! "buildargs"
  = Some (default (PyDict build_args) (extra_build_kwargs !! "buildargs")) /\
  build_kwargs !! "cache_from"
  = Some (default cache_from (extra_build_kwargs !! "cache_from")) /\
  build_kwargs !! "container_limits"
  = Some (default (derived_limits memory_limit)
                  (extra_build_kwargs !! "container_limits")) /\
  Forall (fun k => build_kwargs !! k
                   = Some (default (PyBool true) (extra_build_kwargs !! k)))
         ["custom_context"; "decode"; "forcerm"; "rm"].
Proof.
  unfold PlainBuildPack.build.
  destruct (PlainBuildPack.archive self fs module_dir build_args) as [tarf|e];
    [|intros []].
  destruct (isinstance_int memory_limit); simpl.
  2:{ intros [H|[]]. discriminate H. }
  intros [H|[H|[]]]; [discriminate H|]. injection H as <-.
  split.
  { intros k v Hk. now rewrite lookup_update, Hk. }
  split.
  { exists tarf. split; [reflexivity|]. rewrite lookup_update.
    destruct (extra_build_kwargs !! "fileobj"); [reflexivity|]. now simplify_map_eq. }
  unfold derived_limits.
  repeat split; repeat constructor; rewrite lookup_update;
    match goal with |- context [extra_build_kwargs !! ?k] =>
      destruct (extra_build_kwargs !! k); [reflexivity|] end;
    now simplify_map_eq.
Qed.

Lemma engine_arguments_witness :
  exists build_kwargs,
    In (ClientBuild build_kwargs)
       (fst (PlainBuildPack.build (PlainBuildPack.new bare_super bare_repo)
               (sample_files 0 0 "root") "/opt/plain" sample_client
               (PyStr "image") (PyInt 0) ∅ (PyList [])
               {[ "tag" := PyStr "other"; "pull" := PyBool true ]})) /\
    build_kwargs !! "tag" = Some (PyStr "other") /\
    build_kwargs !! "pull" = Some (PyBool true) /\
    build_kwargs !! "container_limits" = Some (PyDict ∅).
Proof.
  destruct (PlainBuildPack.archive (PlainBuildPack.new bare_super bare_repo)
              (sample_files 0 0 "root") "/opt/plain" ∅) as [tarf|e] eqn:Ha;
    [|vm_compute in Ha; discriminate Ha].
  destruct (build_completes (PlainBuildPack.new bare_super bare_repo)
              (sample_files 0 0 "root") "/opt/plain" sample_client
              (PyStr "image") (PyInt 0) ∅ (PyList [])
              {[ "tag" := PyStr "other"; "pull" := PyBool true ]} tarf Ha
              eq_refl) as (kw & Hrun).
  assert (Hin : In (ClientBuild kw)
                   (fst (PlainBuildPack.build
                           (PlainBuildPack.new bare_super bare_repo)
                           (sample_files 0 0 "root") "/opt/plain" sample_client
                           (PyStr "image") (PyInt 0) ∅ (PyList [])
                           {[ "tag" := PyStr "other"; "pull" := PyBool true ]})))
    by (rewrite Hrun; right; now left).
  destruct (engine_arguments _ _ _ _ _ _ _ _ _ kw Hin)
    as (Hextra & _ & Htag & _ & _ & Hlimits & _).
  exists kw. split; [exact Hin|]. split; [exact Htag|].
  split; [apply Hextra; reflexivity | exact Hlimits].
Defined.

(** ** The [apt.txt] reader, line by line *)

Lemma partition0_split c l :
  exists rest,
    l = partition0 c l +:+ rest /\
    (rest = EmptyString \/ exists comment, rest = String c comment).
Proof.
  induction l as [|a s (rest & Hs & Hrest)]; simpl.
  - exists EmptyString. split; [reflexivity|now left].
  - destruct (Ascii.eqb_spec a c) as [->|Hne].
    + exists (String c s). split; [reflexivity|]. right. now exists s.
    + exists rest. split; [|exact Hrest].
      rewrite append_cons. now rewrite <- Hs.
Qed.

Lemma lstrip_with_split drop s :
  exists pre, s = pre +:+ lstrip_with drop s /\ all_chars drop pre = true.
Proof.
  induction s as [|c s (pre & Hs & Hpre)]; simpl.
  - exists EmptyString. now split.
  - destruct (drop c) eqn:Hc.
    + exists (String c pre). rewrite append_cons, <- Hs. split; [reflexivity|].
      simpl. now rewrite Hc.
    + exists EmptyString. now split.
Qed.

Lemma rstrip_with_split drop s :
  exists post, s = rstrip_with drop s +:+ post /\ all_chars drop post = true.
Proof.
  induction s as [|c s (post & Hs & Hpost)].
  - exists EmptyString. now split.
  - rewrite rstrip_with_cons. destruct (rstrip_with drop s) as [|c' r].
    + change (EmptyString +:+ post) with post in Hs. subst post.
      destruct (drop c) eqn:Hc.
      * exists (String c s). split; [reflexivity|]. simpl. now rewrite Hc.
      * exists s. now split.
    + exists post. rewrite append_cons, <- Hs. now split.
Qed.

Lemma rstrip_with_first drop c r c' r' :
  rstrip_with drop (String c r) = String c' r' -> c' = c.
Proof.
  rewrite rstrip_with_cons. destruct (rstrip_with drop r).
  - destruct (drop c); [discriminate|]. now intros [= <- _].
  - now intros [= <- _].
Qed.

Lemma rstrip_with_last drop s :
  forall t c,
    rstrip_with drop s = t +:+ String c EmptyString -> drop c = false.
Proof.
  induction s as [|a s IH]; intros t c.
  - simpl. destruct t; discriminate.
  - rewrite rstrip_with_cons. destruct (rstrip_with drop s) as [|b r] eqn:E.
    + destruct (drop a) eqn:Ha; [destruct t; discriminate|].
      destruct t as [|a' t]; [now intros [= <-]|].
      rewrite append_cons. intros [= _ H]. destruct t; discriminate.
    + destruct t as [|a' t]; [discriminate|].
      rewrite append_cons. intros [= _ H]. now apply (IH t c).
Qed.

Lemma package_of_split l :
  exists pre post rest,
    l = pre +:+ package_of l +:+ post +:+ rest /\
    all_chars isspace pre = true /\
    all_chars isspace post = true /\
    all_chars not_hash (pre +:+ package_of l +:+ post) = true /\
    (rest = EmptyString \/ exists comment, rest = String "#" comment).
Proof.
  destruct (partition0_split "#" l) as (rest & Hl & Hrest).
  destruct (lstrip_with_split isspace (partition0 "#" l)) as (pre & Hp & Hpre).
  destruct (rstrip_with_split isspace (lstrip_with isspace (partition0 "#" l)))
    as (post & Hq & Hpost).
  exists pre, post, rest.
  assert (E : pre +:+ package_of l +:+ post = partition0 "#" l).
  { unfold package_of, strip, strip_with. now rewrite <- Hq, <- Hp. }
  split.
  { rewrite <- !append_assoc, (append_assoc pre), E. exact Hl. }
  split; [exact Hpre|]. split; [exact Hpost|]. split; [|exact Hrest].
  rewrite E. apply partition0_not_hash.
Qed.

Lemma package_of_ends l :
  (forall c s, package_of l = String c s -> isspace c = false) /\
  (forall s c, package_of l = s +:+ String c EmptyString -> isspace c = false).
Proof.
  unfold package_of, strip, strip_with. split.
  - intros c s H.
    destruct (lstrip_with isspace (partition0 "#" l)) as [|c' r] eqn:E;
      [discriminate|].
    apply rstrip_with_first in H. subst c.
    exact (lstrip_with_head isspace _ _ _ E).
  - intros s c. apply rstrip_with_last.
Qed.

(** C7. Of a line of [apt.txt] the reader keeps what stands before the
    first [#] with the white space around it removed: the line is white
    space, the kept text, white space, and then nothing or a comment that
    starts with [#]; the kept text holds no [#] and neither starts nor
    ends with white space. A line of which nothing is left is skipped. A
    line whose remainder starts with a character outside [[a-z0-9.+-]]
    raises the [ValueError] whose message holds that remainder, and this
    ends the whole build: [get_preassemble_scripts], [render] and [build]
    raise it, no script list is returned and the engine is not called. *)
Theorem apt_txt_line_validation :
  (forall l,
      exists pre post rest,
        l = pre +:+ package_of l +:+ post +:+ rest /\
        all_chars isspace pre = true /\
        all_chars isspace post = true /\
        all_chars not_hash (pre +:+ package_of l +:+ post) = true /\
        (rest = EmptyString \/ exists comment, rest = String "#" comment)) /\
  (forall l,
      (forall c s, package_of l = String c s -> isspace c = false) /\
      (forall s c,
          package_of l = s +:+ String c EmptyString -> isspace c = false)) /\
  (forall p comment,
      all_chars (fun a => negb (Ascii.eqb a "#")) p = true ->
      package_of (p +:+ "#" +:+ comment) = strip p) /\
  (forall l rest acc,
      package_of l = EmptyString -> read_apt (l :: rest) acc = read_apt rest acc) /\
  (forall l rest acc c s,
      package_of l = String c s -> pkg_char c = false ->
      read_apt (l :: rest) acc
      = Raise (ValueError
                 ("Found invalid package name " +:+ String c s +:+ " in apt.txt"))) /\
  (forall super repo before l after pkgs c s,
      read_lines repo (BuildPack.binder_path super "apt.txt")
      = Some (before ++ l :: after) ->
      read_apt before [] = Ok pkgs ->
      package_of l = String c s -> pkg_char c = false ->
      BuildPack.get_preassemble_scripts (PlainBuildPack.new super repo)
      = Raise (ValueError
                 ("Found invalid package name " +:+ String c s +:+ " in apt.txt")) /\
      PlainBuildPack.render (PlainBuildPack.new super repo)
      = Raise (ValueError
                 ("Found invalid package name " +:+ String c s +:+ " in apt.txt")) /\
      forall fs module_dir client image_spec memory_limit build_args
             cache_from extra_build_kwargs,
        PlainBuildPack.build (PlainBuildPack.new super repo) fs module_dir
          client image_spec memory_limit build_args cache_from
          extra_build_kwargs
        = ([], ([], Some (ValueError
                            ("Found invalid package name " +:+ String c s
                             +:+ " in apt.txt"))))).
Proof.
  split; [exact package_of_split|]. split; [exact package_of_ends|].
  split; [|split; [|split]].
  - intros p comment Hp. unfold package_of.
    change (p +:+ "#" +:+ comment) with (p +:+ String "#" comment).
    now rewrite (partition0_comment "#" p comment Hp).
  - apply read_apt_skip.
  - apply read_apt_reject.
  - intros super repo before l after pkgs c s Hread Hbefore Hl Hc.
    assert (Hs : BuildPack.get_preassemble_scripts (PlainBuildPack.new super repo)
                 = Raise (InvalidPackageName (String c s))).
    { simpl. rewrite Hread. unfold PlainBuildPack.get_preassemble_scripts.
      rewrite (read_apt_app before [] pkgs (l :: after) Hbefore).
      now rewrite (read_apt_reject l after pkgs c s Hl Hc). }
    assert (Hr : PlainBuildPack.render (PlainBuildPack.new super repo)
                 = Raise (InvalidPackageName (String c s))).
    { unfold PlainBuildPack.render, PlainBuildPack.render_items.
      now rewrite Hs. }
    split; [exact Hs|]. split; [exact Hr|]. intros.
    unfold PlainBuildPack.build, PlainBuildPack.archive. now rewrite Hr.
Qed.

Lemma apt_txt_line_validation_witness :
  package_of ("  git  # version control") = "git" /\
  read_apt ["  # nothing"; "git"] [] = read_apt ["git"] [] /\
  PlainBuildPack.render
    (PlainBuildPack.new bare_super (apt_repo ["git"; "   _curl # odd"; "vim"]))
  = Raise (ValueError "Found invalid package name _curl in apt.txt").
Proof.
  destruct apt_txt_line_validation as (_ & _ & Hcomment & Hskip & _ & Hfatal).
  split; [|split].
  - apply (Hcomment "  git  " " version control"). reflexivity.
  - apply (Hskip "  # nothing" ["git"] []). reflexivity.
  - apply (Hfatal bare_super (apt_repo ["git"; "   _curl # odd"; "vim"])
             ["git"] "   _curl # odd" ["vim"] ["git"] "_"%char "curl");
      reflexivity.
Defined.
